(** * IVF-PQ index structure and aligned device views of RAFT

    Shallow embedding of
      - cpp/include/raft/neighbors/ivf_pq_types.hpp  (struct [index<IdxT>])
      - cpp/include/raft/core/device_mdspan.hpp      ([make_device_aligned_matrix_view])

    Conventions.  A [uint32_t] is a [Z] in [0, 2^32); every operation whose
    C++ result type is [uint32_t] is reduced modulo [2^32] explicitly.
    [IdxT] is instantiated at [uint64_t].  Code that can throw returns a
    [result]; a member function that mutates [*this] and can throw returns the
    object as it is left behind together with the outcome of the call. *)

From Stdlib Require Import ZArith List Lia Bool.
From Stdlib Require QArith.
Import ListNotations.

Local Open Scope Z_scope.

(* ------------------------------------------------------------------ *)
(** ** Machine integers *)

Module Uint32.

Definition modulus : Z := 2 ^ 32.

Definition in_range (x : Z) : Prop := 0 <= x < modulus.

Definition wrap (x : Z) : Z := x mod modulus.

Definition add (x y : Z) : Z := wrap (x + y).
Definition mul (x y : Z) : Z := wrap (x * y).
Definition shl (x n : Z) : Z := wrap (Z.shiftl x n).

End Uint32.

(* ------------------------------------------------------------------ *)
(** ** Outcomes of throwing code *)

(** What a call can end in other than a normal return.  The first two are the
    two [RAFT_EXPECTS] of [check_consistency], each with the values its message
    formats; [fail_unreachable] is the [RAFT_FAIL] of the codebook switch. *)
Inductive error : Type :=
| expects_pq_bits (pq_bits : Z)
| expects_pq_dim (pq_bits pq_dim product : Z)
| fail_unreachable
| bad_alloc
| undefined_behaviour
| out_of_fuel.

Inductive result (A : Type) : Type :=
| Ok (a : A)
| Err (e : error).

Arguments Ok {A} a.
Arguments Err {A} e.

Definition bind {A B : Type} (c : result A) (k : A -> result B) : result B :=
  match c with
  | Ok a => k a
  | Err e => Err e
  end.

Notation "x <- c ;; k" := (bind c (fun x => k))
  (at level 61, c at next level, right associativity).

Definition of_option {A : Type} (e : error) (o : option A) : result A :=
  match o with
  | Some a => Ok a
  | None => Err e
  end.

(** Structural-validation failures are the failures of [RAFT_EXPECTS]. *)
Definition is_structural (e : error) : bool :=
  match e with
  | expects_pq_bits _ | expects_pq_dim _ _ _ => true
  | _ => false
  end.

(** Modelled from the spec: how the failures of [RAFT_EXPECTS] and
    [RAFT_FAIL] (raft/core/error.hpp is not among the sources) and of the
    allocator reach the caller.  The unrecognised codebook mode is listed
    with the two validation failures, "raised synchronously at construction",
    and an allocation failure is "propagated to the caller": all of them are
    exceptions.  Undefined behaviour and a loop that does not end are not. *)
Definition is_exception (e : error) : bool :=
  match e with
  | expects_pq_bits _ | expects_pq_dim _ _ _ | fail_unreachable | bad_alloc =>
      true
  | undefined_behaviour | out_of_fuel => false
  end.

(** A caller that runs [c] in a [try] block and handles what it throws. *)
Definition try_catch {A : Type} (c : result A) (handler : error -> result A)
  : result A :=
  match c with
  | Ok a => Ok a
  | Err e => if is_exception e then handler e else Err e
  end.

(* ------------------------------------------------------------------ *)
(** ** raft/util/integer_utils.hpp *)

(** Modelled from the spec: [raft::round_down_safe] (raft/util/integer_utils.hpp
    is not among the sources).  "Round the result down to the nearest multiple
    of 32": the largest multiple of [modulus] not above [number_to_round]. *)
Definition round_down_safe (number_to_round modulus : Z) : Z :=
  number_to_round - number_to_round mod modulus.

(** Modelled from the spec: [raft::round_up_safe] (same header).
    [round_up(dim+1, 8)]: the least multiple of [modulus] not below
    [number_to_round]. *)
Definition round_up_safe (number_to_round modulus : Z) : Z :=
  let remainder := number_to_round mod modulus in
  if remainder =? 0 then number_to_round
  else number_to_round - remainder + modulus.

(** Modelled from the spec: [raft::div_rounding_up_unsafe] (same header).
    [ceil_div(dim, pq_dim)]: the quotient rounded up.  Integer division by
    zero has no defined result in C++, hence [None]. *)
Definition div_rounding_up_unsafe (dividend divisor : Z) : option Z :=
  if divisor =? 0 then None
  else Some ((dividend + divisor - 1) / divisor).

(* ------------------------------------------------------------------ *)
(** ** index::calculate_pq_dim *)

(** The loop [while ((r << 1) <= dim) { r = r << 1; }] on [uint32_t], with
    the number of iterations bounded by [fuel]. *)
Fixpoint pq_dim_loop (fuel : nat) (r dim : Z) : option Z :=
  match fuel with
  | O => None
  | S fuel' =>
      if Uint32.shl r 1 <=? dim
      then pq_dim_loop fuel' (Uint32.shl r 1) dim
      else Some r
  end.

Definition calculate_pq_dim_fuel (fuel : nat) (dim : Z) : option Z :=
  let dim := if 128 <=? dim then dim / 2 else dim in
  let r := round_down_safe dim 32 in
  if 0 <? r then Some r
  else pq_dim_loop fuel 1 dim.

(** [r] doubles at each iteration and is a [uint32_t]: 33 iterations exhaust
    every run that does not cycle. *)
Definition calculate_pq_dim (dim : Z) : option Z :=
  calculate_pq_dim_fuel 33 dim.

(* ------------------------------------------------------------------ *)
(** ** Owned device arrays *)

(** Element types of the seven arrays of the index. *)
Inductive elem_t : Type :=
| float_t
| uint8_t
| IdxT_t.

Definition sizeof (t : elem_t) : Z :=
  match t with
  | float_t => 4
  | uint8_t => 1
  | IdxT_t => 8
  end.

(** An owned array: its element type, its extents, and the cells that have
    been written since it was allocated ([None]: still uninitialised). *)
Record mdarray : Type := {
  elem : elem_t;
  extents : list Z;
  cells : Z -> option Z
}.

Definition extent (a : mdarray) (i : nat) : Z := nth i (extents a) 0.

Definition n_elems (a : mdarray) : Z := fold_right Z.mul 1 (extents a).

(** Modelled from the spec: a store through a read-write view of the array
    (the views are [mdspan]s, not among the sources).  A view is a handle on
    the owned storage, never a copy: the store lands in the array. *)
Definition store (a : mdarray) (offset value : Z) : mdarray :=
  {| elem := elem a;
     extents := extents a;
     cells := fun i => if i =? offset then Some value else cells a i |}.

(** Modelled from the spec: [raft::handle_t], of which the sources only pass
    a reference around.  The execution context is an opaque allocator: it
    either satisfies a request or it does not. *)
Record handle_t : Type := {
  can_allocate : elem_t -> list Z -> bool
}.

(** A fresh buffer: no cell has been written. *)
Definition uninitialised (t : elem_t) (exts : list Z) : mdarray :=
  {| elem := t; extents := exts; cells := fun _ => None |}.

(** Modelled from the spec: [raft::make_device_mdarray]
    (raft/core/device_mdarray.hpp is not among the sources).  Allocates a
    buffer of the requested shape with uninitialised contents; when the
    allocator cannot satisfy the request the failure propagates to the
    caller. *)
Definition make_device_mdarray (handle : handle_t) (t : elem_t) (exts : list Z)
  : result mdarray :=
  if can_allocate handle t exts
  then Ok (uninitialised t exts)
  else Err bad_alloc.

(** Number of bytes of a request. *)
Definition request_bytes (t : elem_t) (exts : list Z) : Z :=
  sizeof t * fold_right Z.mul 1 exts.

(** Two allocators used in the examples: one with room for anything, one
    that satisfies requests of at most [capacity] bytes. *)
Definition unlimited_handle : handle_t :=
  {| can_allocate := fun _ _ => true |}.

Definition capacity_handle (capacity : Z) : handle_t :=
  {| can_allocate := fun t exts => request_bytes t exts <=? capacity |}.

(* ------------------------------------------------------------------ *)
(** ** raft::neighbors::ivf_pq *)

Module ivf_pq.

(** [enum class codebook_gen]: the underlying integer; a value other than
    the two enumerators can be produced by a cast. *)
Definition codebook_gen : Type := Z.
Definition PER_SUBSPACE : codebook_gen := 0.
Definition PER_CLUSTER : codebook_gen := 1.

(** Modelled from the spec: [raft::distance::DistanceType]
    (raft/distance/distance_types.hpp is not among the sources); the index
    only stores and returns it. *)
Definition DistanceType : Type := Z.

(** The scalar members of [index], in declaration order.  They are kept
    apart from the arrays because the getters that the member initialisers
    of the arrays call read the scalar members only, which are initialised
    by then. *)
Record index_scalars : Type := {
  metric_ : DistanceType;
  codebook_kind_ : codebook_gen;
  n_lists_ : Z;
  dim_ : Z;
  pq_bits_ : Z;
  pq_dim_ : Z;
  n_nonempty_lists_ : Z
}.

(** [index<IdxT>]: the scalar members followed by the seven arrays. *)
Record index : Type := {
  scalars :> index_scalars;
  pq_centers_ : mdarray;
  pq_dataset_ : mdarray;
  indices_ : mdarray;
  rotation_matrix_ : mdarray;
  list_offsets_ : mdarray;
  centers_ : mdarray;
  centers_rot_ : mdarray
}.

(** *** Getters *)

Definition size (self : index) : Z := extent (indices_ self) 0.
Definition dim (self : index_scalars) : Z := dim_ self.
Definition pq_bits (self : index_scalars) : Z := pq_bits_ self.
Definition pq_dim (self : index_scalars) : Z := pq_dim_ self.
Definition metric (self : index_scalars) : DistanceType := metric_ self.
Definition codebook_kind (self : index_scalars) : codebook_gen :=
  codebook_kind_ self.
Definition n_lists (self : index_scalars) : Z := n_lists_ self.
Definition n_nonempty_lists (self : index_scalars) : Z :=
  n_nonempty_lists_ self.

Definition dim_ext (self : index_scalars) : Z :=
  Uint32.wrap (round_up_safe (Uint32.add (dim self) 1) 8).

Definition pq_len (self : index_scalars) : option Z :=
  div_rounding_up_unsafe (dim self) (pq_dim self).

Definition rot_dim (self : index_scalars) : option Z :=
  option_map (fun len => Uint32.mul len (pq_dim self)) (pq_len self).

(** [1 << pq_bits()]: the left operand is an [int]; a shift count of 32 or
    more has no defined result. *)
Definition pq_book_size (self : index_scalars) : option Z :=
  if pq_bits self <? 32 then Some (Uint32.shl 1 (pq_bits self)) else None.

(** *** Private helpers *)

Definition check_consistency (self : index_scalars) : result unit :=
  if (4 <=? pq_bits self) && (pq_bits self <=? 8) then
    if Uint32.mul (pq_bits self) (pq_dim self) mod 8 =? 0 then Ok tt
    else Err (expects_pq_dim (pq_bits self) (pq_dim self)
                (Uint32.mul (pq_bits self) (pq_dim self)))
  else Err (expects_pq_bits (pq_bits self)).

Definition make_pq_centers_extents (self : index_scalars) : result (list Z) :=
  if codebook_kind self =? PER_SUBSPACE then
    book <- of_option undefined_behaviour (pq_book_size self) ;;
    len <- of_option undefined_behaviour (pq_len self) ;;
    Ok [pq_dim self; book; len]
  else if codebook_kind self =? PER_CLUSTER then
    book <- of_option undefined_behaviour (pq_book_size self) ;;
    len <- of_option undefined_behaviour (pq_len self) ;;
    Ok [n_lists self; book; len]
  else Err fail_unreachable.

(** *** Constructor

    The member initialisers run in declaration order, each reading the
    members initialised before it; the body then calls
    [check_consistency]. *)
Definition index_ctor (handle : handle_t) (metric : DistanceType)
    (codebook_kind : codebook_gen)
    (n_lists dim pq_bits pq_dim n_nonempty_lists : Z) : result index :=
  derived <- (if pq_dim =? 0
              then of_option out_of_fuel (calculate_pq_dim dim)
              else Ok pq_dim) ;;
  let s := {| metric_ := metric;
              codebook_kind_ := codebook_kind;
              n_lists_ := n_lists;
              dim_ := dim;
              pq_bits_ := pq_bits;
              pq_dim_ := derived;
              n_nonempty_lists_ := n_nonempty_lists |} in
  centers_exts <- make_pq_centers_extents s ;;
  a_pq_centers <- make_device_mdarray handle float_t centers_exts ;;
  a_pq_dataset <- make_device_mdarray handle uint8_t
                    [0; Uint32.mul (ivf_pq.pq_dim s) (ivf_pq.pq_bits s) / 8] ;;
  a_indices <- make_device_mdarray handle IdxT_t [0] ;;
  rot <- of_option undefined_behaviour (rot_dim s) ;;
  a_rotation <- make_device_mdarray handle float_t [rot; ivf_pq.dim s] ;;
  a_offsets <- make_device_mdarray handle IdxT_t
                 [Uint32.add (ivf_pq.n_lists s) 1] ;;
  a_centers <- make_device_mdarray handle float_t
                 [ivf_pq.n_lists s; dim_ext s] ;;
  a_centers_rot <- make_device_mdarray handle float_t
                     [ivf_pq.n_lists s; rot] ;;
  let self := {| scalars := s;
                 pq_centers_ := a_pq_centers;
                 pq_dataset_ := a_pq_dataset;
                 indices_ := a_indices;
                 rotation_matrix_ := a_rotation;
                 list_offsets_ := a_offsets;
                 centers_ := a_centers;
                 centers_rot_ := a_centers_rot |} in
  _ <- check_consistency self ;;
  Ok self.

(** *** Construction from [index_params] *)

(** [struct index_params : ann::index_params].  Of the base class
    (raft/neighbors/ann_types.hpp is not among the sources) only [metric],
    the member the constructor reads, is kept. *)
Record index_params : Type := {
  params_metric : DistanceType;
  params_n_lists : Z;
  params_kmeans_n_iters : Z;
  params_kmeans_trainset_fraction : QArith_base.Q;
  params_pq_bits : Z;
  params_pq_dim : Z;
  params_codebook_kind : codebook_gen;
  params_force_random_rotation : bool
}.

(** The default member initialisers of [index_params]. *)
Definition default_index_params (metric : DistanceType) : index_params :=
  {| params_metric := metric;
     params_n_lists := 1024;
     params_kmeans_n_iters := 20;
     params_kmeans_trainset_fraction := QArith_base.Qmake 1 2;
     params_pq_bits := 8;
     params_pq_dim := 0;
     params_codebook_kind := PER_SUBSPACE;
     params_force_random_rotation := false |}.

(** [index(handle, params, dim, n_nonempty_lists)] delegates to the
    constructor above. *)
Definition index_ctor_params (handle : handle_t) (params : index_params)
    (dim n_nonempty_lists : Z) : result index :=
  index_ctor handle (params_metric params) (params_codebook_kind params)
    (params_n_lists params) dim (params_pq_bits params) (params_pq_dim params)
    n_nonempty_lists.

(** *** allocate *)

Definition set_pq_dataset (a : mdarray) (self : index) : index :=
  {| scalars := scalars self;
     pq_centers_ := pq_centers_ self;
     pq_dataset_ := a;
     indices_ := indices_ self;
     rotation_matrix_ := rotation_matrix_ self;
     list_offsets_ := list_offsets_ self;
     centers_ := centers_ self;
     centers_rot_ := centers_rot_ self |}.

Definition set_indices (a : mdarray) (self : index) : index :=
  {| scalars := scalars self;
     pq_centers_ := pq_centers_ self;
     pq_dataset_ := pq_dataset_ self;
     indices_ := a;
     rotation_matrix_ := rotation_matrix_ self;
     list_offsets_ := list_offsets_ self;
     centers_ := centers_ self;
     centers_rot_ := centers_rot_ self |}.

(** The three statements of [allocate] in order.  An exception leaves
    [*this] with the assignments made before it. *)
Definition allocate (handle : handle_t) (index_size : Z) (self : index)
  : index * result unit :=
  match make_device_mdarray handle uint8_t
          [index_size; extent (pq_dataset_ self) 1] with
  | Err e => (self, Err e)
  | Ok a =>
      let self := set_pq_dataset a self in
      match make_device_mdarray handle IdxT_t [index_size] with
      | Err e => (self, Err e)
      | Ok b =>
          let self := set_indices b self in
          (self, check_consistency self)
      end
  end.

(** The last value of [list_offsets], if it has been written. *)
Definition list_offsets_back (self : index) : option Z :=
  cells (list_offsets_ self) (extent (list_offsets_ self) 0 - 1).

(** *** Accessors

    Each of the seven accessors returns [member_.view()].  What the code that
    trains and populates the index does with the view is to store into it. *)
Inductive accessor : Type :=
| pq_centers
| pq_dataset
| indices
| rotation_matrix
| list_offsets
| centers
| centers_rot.

Definition accessor_eqb (x y : accessor) : bool :=
  match x, y with
  | pq_centers, pq_centers
  | pq_dataset, pq_dataset
  | indices, indices
  | rotation_matrix, rotation_matrix
  | list_offsets, list_offsets
  | centers, centers
  | centers_rot, centers_rot => true
  | _, _ => false
  end.

Definition view (which : accessor) (self : index) : mdarray :=
  match which with
  | pq_centers => pq_centers_ self
  | pq_dataset => pq_dataset_ self
  | indices => indices_ self
  | rotation_matrix => rotation_matrix_ self
  | list_offsets => list_offsets_ self
  | centers => centers_ self
  | centers_rot => centers_rot_ self
  end.

(** A store at [offset] through the view that accessor [which] returns. *)
Definition store_through (which : accessor) (offset value : Z) (self : index)
  : index :=
  let upd m a := if accessor_eqb which m then store a offset value else a in
  {| scalars := scalars self;
     pq_centers_ := upd pq_centers (pq_centers_ self);
     pq_dataset_ := upd pq_dataset (pq_dataset_ self);
     indices_ := upd indices (indices_ self);
     rotation_matrix_ := upd rotation_matrix (rotation_matrix_ self);
     list_offsets_ := upd list_offsets (list_offsets_ self);
     centers_ := upd centers (centers_ self);
     centers_rot_ := upd centers_rot (centers_rot_ self) |}.

(** States of an index object over its lifetime: what a constructor call
    with [uint32_t] arguments returns, what any call of [allocate] leaves
    behind, whether it returns or throws, and what a store within bounds
    through one of the views leaves behind. *)
Inductive reachable : index -> Prop :=
| reachable_ctor handle metric kind n_lists dim pq_bits pq_dim nnl self :
    Uint32.in_range n_lists ->
    Uint32.in_range dim ->
    Uint32.in_range pq_bits ->
    Uint32.in_range pq_dim ->
    Uint32.in_range nnl ->
    index_ctor handle metric kind n_lists dim pq_bits pq_dim nnl = Ok self ->
    reachable self
| reachable_allocate handle index_size self self' outcome :
    reachable self ->
    allocate handle index_size self = (self', outcome) ->
    reachable self'
| reachable_store which offset value self :
    reachable self ->
    0 <= offset < n_elems (view which self) ->
    reachable (store_through which offset value self).

End ivf_pq.

Coercion ivf_pq.scalars : ivf_pq.index >-> ivf_pq.index_scalars.

(* ------------------------------------------------------------------ *)
(** ** raft/core/device_mdspan.hpp: aligned matrix views *)

Module aligned_view.

(** Modelled from the spec: [detail::alignment::value] (raft/core/mdspan.hpp
    is not among the sources), the fixed byte alignment, 128. *)
Definition alignment_value : Z := 128.

(** Modelled from the spec: [raft::alignTo] (not among the sources): the
    address rounded up to a multiple of the alignment, so that an address is
    left in place exactly when it is such a multiple. *)
Definition alignTo (ptr align : Z) : Z := round_up_safe ptr align.

(** A non-owning view: the wrapped address and the extents. *)
Record device_aligned_matrix_view : Type := {
  data_handle : Z;
  view_extents : list Z
}.

(** Device memory, by address. *)
Definition memory : Type := Z -> option Z.

Inductive outcome : Type :=
| returned (v : device_aligned_matrix_view)
| assertion_failed.

(** [make_device_aligned_matrix_view(ptr, n_rows, n_cols)].  The only check
    is an [assert], which the preprocessor removes when [NDEBUG] is defined.
    The function is given the device memory and hands it back: it contains no
    load and no store. *)
Definition make_device_aligned_matrix_view (NDEBUG : bool) (mem : memory)
    (ptr n_rows n_cols : Z) : memory * outcome :=
  if negb NDEBUG && negb (ptr =? alignTo ptr alignment_value)
  then (mem, assertion_failed)
  else
    let aligned_pointer := ptr in
    let extents := [n_rows; n_cols] in
    (mem, returned {| data_handle := aligned_pointer;
                      view_extents := extents |}).

End aligned_view.

(* ------------------------------------------------------------------ *)
(** ** Shape invariant of an index object *)

(** The object the constructor assembles from the scalar members, the
    extents chosen for [pq_centers] and the value of [rot_dim()]. *)
Definition empty_index (s : ivf_pq.index_scalars) (centers_exts : list Z)
    (rot : Z) : ivf_pq.index :=
  {| ivf_pq.scalars := s;
     ivf_pq.pq_centers_ := uninitialised float_t centers_exts;
     ivf_pq.pq_dataset_ :=
       uninitialised uint8_t
         [0; Uint32.mul (ivf_pq.pq_dim s) (ivf_pq.pq_bits s) / 8];
     ivf_pq.indices_ := uninitialised IdxT_t [0];
     ivf_pq.rotation_matrix_ := uninitialised float_t [rot; ivf_pq.dim s];
     ivf_pq.list_offsets_ :=
       uninitialised IdxT_t [Uint32.add (ivf_pq.n_lists s) 1];
     ivf_pq.centers_ :=
       uninitialised float_t [ivf_pq.n_lists s; ivf_pq.dim_ext s];
     ivf_pq.centers_rot_ := uninitialised float_t [ivf_pq.n_lists s; rot] |}.

(** The seven requests the member initialisers make, in their order. *)
Definition ctor_requests (s : ivf_pq.index_scalars) (centers_exts : list Z)
    (rot : Z) : list (elem_t * list Z) :=
  [ (float_t, centers_exts);
    (uint8_t, [0; Uint32.mul (ivf_pq.pq_dim s) (ivf_pq.pq_bits s) / 8]);
    (IdxT_t, [0]);
    (float_t, [rot; ivf_pq.dim s]);
    (IdxT_t, [Uint32.add (ivf_pq.n_lists s) 1]);
    (float_t, [ivf_pq.n_lists s; ivf_pq.dim_ext s]);
    (float_t, [ivf_pq.n_lists s; rot]) ].

(** Whether the allocator satisfies every request of a list. *)
Definition grants (handle : handle_t) (requests : list (elem_t * list Z))
  : bool :=
  forallb (fun r => can_allocate handle (fst r) (snd r)) requests.

(** What holds of the members of every object that exists: the scalars are
    [uint32_t] values that pass [check_consistency], [pq_dim] is not zero,
    and the arrays have the extents the constructor computed, but for the
    number of rows of [pq_dataset] and [indices]. *)
Record index_inv (self : ivf_pq.index) : Prop := {
  inv_n_lists : Uint32.in_range (ivf_pq.n_lists self);
  inv_dim : Uint32.in_range (ivf_pq.dim self);
  inv_pq_bits : Uint32.in_range (ivf_pq.pq_bits self);
  inv_pq_dim : Uint32.in_range (ivf_pq.pq_dim self);
  inv_pq_dim_nonzero : ivf_pq.pq_dim self <> 0;
  inv_consistent : ivf_pq.check_consistency self = Ok tt;
  inv_pq_centers :
    ivf_pq.make_pq_centers_extents self
      = Ok (extents (ivf_pq.pq_centers_ self));
  inv_pq_dataset :
    exists n_codes,
      extents (ivf_pq.pq_dataset_ self) =
        [n_codes; Uint32.mul (ivf_pq.pq_dim self) (ivf_pq.pq_bits self) / 8];
  inv_indices :
    exists n_ids, extents (ivf_pq.indices_ self) = [n_ids];
  inv_rotation :
    exists rot,
      ivf_pq.rot_dim self = Some rot /\
      extents (ivf_pq.rotation_matrix_ self) = [rot; ivf_pq.dim self] /\
      extents (ivf_pq.centers_rot_ self) = [ivf_pq.n_lists self; rot];
  inv_list_offsets :
    extents (ivf_pq.list_offsets_ self)
      = [Uint32.add (ivf_pq.n_lists self) 1];
  inv_centers :
    extents (ivf_pq.centers_ self)
      = [ivf_pq.n_lists self; ivf_pq.dim_ext self]
}.

(* ------------------------------------------------------------------ *)
(** ** A small index used in the examples *)

(** [index(handle, metric, PER_SUBSPACE, n_lists = 1, dim = 8, pq_bits = 8,
    pq_dim = 4)]: codebooks of [4 * 256 * 2] floats, one byte per
    sub-vector. *)
Definition small_scalars : ivf_pq.index_scalars :=
  {| ivf_pq.metric_ := 0;
     ivf_pq.codebook_kind_ := ivf_pq.PER_SUBSPACE;
     ivf_pq.n_lists_ := 1;
     ivf_pq.dim_ := 8;
     ivf_pq.pq_bits_ := 8;
     ivf_pq.pq_dim_ := 4;
     ivf_pq.n_nonempty_lists_ := 0 |}.

Definition small_index : ivf_pq.index :=
  empty_index small_scalars [4; 256; 2] 8.

(** [index(handle, metric, PER_CLUSTER, n_lists = 1, dim = 2^31 + 1,
    pq_bits = 8, pq_dim = 2^31)]: [dim] rounded up to a multiple of [pq_dim]
    is [2^32], which does not fit a [uint32_t]. *)
Definition wide_scalars : ivf_pq.index_scalars :=
  {| ivf_pq.metric_ := 0;
     ivf_pq.codebook_kind_ := ivf_pq.PER_CLUSTER;
     ivf_pq.n_lists_ := 1;
     ivf_pq.dim_ := 2 ^ 31 + 1;
     ivf_pq.pq_bits_ := 8;
     ivf_pq.pq_dim_ := 2 ^ 31;
     ivf_pq.n_nonempty_lists_ := 0 |}.

Definition wide_index : ivf_pq.index :=
  empty_index wide_scalars [1; 256; 2] 0.

(** [index(handle, metric, PER_CLUSTER, n_lists = 1, dim = 8, pq_bits = 8,
    pq_dim = 2^29)]: the product [pq_dim * pq_bits] is [2^32]. *)
Definition packed_scalars : ivf_pq.index_scalars :=
  {| ivf_pq.metric_ := 0;
     ivf_pq.codebook_kind_ := ivf_pq.PER_CLUSTER;
     ivf_pq.n_lists_ := 1;
     ivf_pq.dim_ := 8;
     ivf_pq.pq_bits_ := 8;
     ivf_pq.pq_dim_ := 2 ^ 29;
     ivf_pq.n_nonempty_lists_ := 0 |}.

Definition packed_index : ivf_pq.index :=
  empty_index packed_scalars [1; 256; 1] (2 ^ 29).

(** [index(handle, metric, PER_SUBSPACE, n_lists = 2^32 - 1, dim = 8,
    pq_bits = 8, pq_dim = 4)]: the largest number of lists. *)
Definition many_lists_scalars : ivf_pq.index_scalars :=
  {| ivf_pq.metric_ := 0;
     ivf_pq.codebook_kind_ := ivf_pq.PER_SUBSPACE;
     ivf_pq.n_lists_ := 2 ^ 32 - 1;
     ivf_pq.dim_ := 8;
     ivf_pq.pq_bits_ := 8;
     ivf_pq.pq_dim_ := 4;
     ivf_pq.n_nonempty_lists_ := 0 |}.

Definition many_lists_index : ivf_pq.index :=
  empty_index many_lists_scalars [4; 256; 2] 8.



(* ------------------------------------------------------------------ *)
(** ** The heuristic of [calculate_pq_dim] in the words of its description *)

Definition is_power_of_two (r : Z) : Prop := exists k, 0 <= k /\ r = 2 ^ k.

Definition largest_power_of_two_le (d r : Z) : Prop :=
  is_power_of_two r /\ r <= d /\
  forall r', is_power_of_two r' -> r' <= d -> r' <= r.

Definition largest_multiple_le (m d r : Z) : Prop :=
  (exists q, r = m * q) /\ r <= d < r + m.

(** Halve [dim] if it is at least 128; round down to a multiple of 32; if
    that is 0, the largest power of two not above the (possibly halved)
    [dim]. *)
Definition pq_dim_heuristic (dim r : Z) : Prop :=
  exists d m,
    (128 <= dim -> d = dim / 2) /\
    (dim < 128 -> d = dim) /\
    largest_multiple_le 32 d m /\
    (m <> 0 -> r = m) /\
    (m = 0 -> largest_power_of_two_le d r).

(** ** Rounding, in the words of the descriptions *)

Definition least_multiple_ge (m d r : Z) : Prop :=
  (exists q, r = m * q) /\ d <= r < d + m.

Definition is_ceil_div (a b q : Z) : Prop :=
  (q - 1) * b < a <= q * b.

(* ================================================================== *)
(** * Properties *)

(** ** Machine arithmetic *)

Lemma wrap_in_range x : Uint32.in_range (Uint32.wrap x).
Proof.
  unfold Uint32.in_range, Uint32.wrap, Uint32.modulus.
  apply Z.mod_pos_bound. lia.
Qed.

Lemma wrap_small x : Uint32.in_range x -> Uint32.wrap x = x.
Proof. unfold Uint32.in_range, Uint32.wrap. intros H. now apply Z.mod_small. Qed.

Lemma shl_1_double r : 0 <= r -> 2 * r < 2 ^ 32 -> Uint32.shl r 1 = 2 * r.
Proof.
  intros Hr Hlt. unfold Uint32.shl.
  rewrite Z.shiftl_mul_pow2 by lia.
  change (2 ^ 1) with 2. rewrite wrap_small; [lia|].
  unfold Uint32.in_range, Uint32.modulus. lia.
Qed.

Lemma round_down_safe_multiple d m :
  0 < m -> largest_multiple_le m d (round_down_safe d m).
Proof.
  intros Hm. unfold largest_multiple_le, round_down_safe.
  pose proof (Z.mod_pos_bound d m Hm) as Hb.
  split; [|lia].
  exists (d / m). pose proof (Z.div_mod d m). lia.
Qed.

(** ** Powers of two *)

Lemma pow2_bracket_largest k d :
  0 <= k -> 2 ^ k <= d < 2 ^ (k + 1) -> largest_power_of_two_le d (2 ^ k).
Proof.
  intros Hk [Hlo Hhi]. repeat split.
  - exists k. auto.
  - exact Hlo.
  - intros r' [k' [Hk' ->]] Hle.
    apply Z.pow_le_mono_r; [lia|].
    assert (k' < k + 1); [|lia].
    apply (Z.pow_lt_mono_r_iff 2); lia.
Qed.

Lemma no_power_of_two_le_0 r : ~ largest_power_of_two_le 0 r.
Proof.
  intros [[k [Hk ->]] [Hle _]].
  pose proof (Z.pow_pos_nonneg 2 k). lia.
Qed.

(** ** The doubling loop *)

(** Started at a power of two not above [dim], the loop stops at the power
    of two that brackets [dim], within [log2 dim - k + 1] iterations. *)
Lemma pq_dim_loop_bracket fuel :
  forall k dim,
    0 <= k -> 2 ^ k <= dim -> dim < 2 ^ 31 ->
    (Z.to_nat (Z.log2 dim - k) < fuel)%nat ->
    exists j, k <= j /\ pq_dim_loop fuel (2 ^ k) dim = Some (2 ^ j) /\
              2 ^ j <= dim < 2 ^ (j + 1).
Proof.
  induction fuel as [|fuel IH]; intros k dim Hk Hlo Hhi Hfuel; [lia|].
  assert (Hpos : 0 < 2 ^ k) by (apply Z.pow_pos_nonneg; lia).
  assert (Hdbl : 2 ^ (k + 1) = 2 * 2 ^ k)
    by (rewrite Z.pow_add_r by lia; change (2 ^ 1) with 2; lia).
  simpl. rewrite shl_1_double by lia. rewrite <- Hdbl.
  destruct (2 ^ (k + 1) <=? dim) eqn:Hcmp.
  - apply Z.leb_le in Hcmp.
    assert (Hlog : k + 1 <= Z.log2 dim) by (apply Z.log2_le_pow2; lia).
    destruct (IH (k + 1) dim) as [j [Hj [Hrun Hbr]]]; try lia.
    exists j. repeat split; try lia. exact Hrun.
  - apply Z.leb_gt in Hcmp. exists k. repeat split; try lia.
Qed.

Lemma pq_dim_loop_small dim :
  1 <= dim < 32 ->
  exists j, 0 <= j /\ pq_dim_loop 33 1 dim = Some (2 ^ j) /\
            2 ^ j <= dim < 2 ^ (j + 1).
Proof.
  intros Hd.
  assert (Hlog : Z.log2 dim < 5).
  { apply Z.log2_lt_pow2; [lia|]. change (2 ^ 5) with 32. lia. }
  pose proof (Z.log2_nonneg dim).
  apply (pq_dim_loop_bracket 33 0 dim); lia.
Qed.

(** ** [calculate_pq_dim] *)

(** The three ways [calculate_pq_dim] returns, on the possibly halved
    [dim]. *)
Lemma calculate_pq_dim_cases dim :
  Uint32.in_range dim ->
  exists d,
    (128 <= dim -> d = dim / 2) /\ (dim < 128 -> d = dim) /\
    ((32 <= d /\ calculate_pq_dim dim = Some (round_down_safe d 32)) \/
     (1 <= d < 32 /\
      exists j, 0 <= j /\ calculate_pq_dim dim = Some (2 ^ j) /\
                2 ^ j <= d < 2 ^ (j + 1)) \/
     (dim = 0 /\ calculate_pq_dim dim = Some 1)).
Proof.
  intros [Hlo Hhi]. unfold Uint32.modulus in Hhi.
  unfold calculate_pq_dim, calculate_pq_dim_fuel.
  destruct (128 <=? dim) eqn:Hbig.
  - apply Z.leb_le in Hbig. exists (dim / 2).
    split; [auto|]. split; [lia|]. left.
    assert (64 <= dim / 2) by (apply Z.div_le_lower_bound; lia).
    destruct (round_down_safe_multiple (dim / 2) 32) as [_ Hb]; [lia|].
    split; [lia|].
    destruct (0 <? round_down_safe (dim / 2) 32) eqn:Hr; [reflexivity|].
    apply Z.ltb_ge in Hr. lia.
  - apply Z.leb_gt in Hbig. exists dim.
    split; [lia|]. split; [auto|].
    destruct (round_down_safe_multiple dim 32) as [[q Hq] Hb]; [lia|].
    destruct (0 <? round_down_safe dim 32) eqn:Hr.
    + apply Z.ltb_lt in Hr. left. split; [lia|reflexivity].
    + apply Z.ltb_ge in Hr. right.
      assert (Hz : round_down_safe dim 32 = 0) by lia.
      destruct (Z.eq_dec dim 0) as [->|Hnz].
      * right. split; reflexivity.
      * left. assert (Hd : 1 <= dim < 32) by lia. split; [exact Hd|].
        destruct (pq_dim_loop_small dim Hd) as [j [Hj [Hrun Hbr]]].
        exists j. auto.
Qed.

Lemma calculate_pq_dim_positive dim :
  Uint32.in_range dim ->
  exists r, calculate_pq_dim dim = Some r /\ 1 <= r /\ r <= Z.max dim 1 /\
            ((0 < r /\ r mod 32 = 0) \/ is_power_of_two r).
Proof.
  intros Hr. pose proof Hr as [Hlo Hhi].
  destruct (calculate_pq_dim_cases dim Hr) as [d [Hhalf [Hkeep Hcase]]].
  assert (Hd : d <= dim).
  { destruct (Z_lt_le_dec dim 128) as [Hs|Hb]; [rewrite Hkeep; lia|].
    rewrite Hhalf by lia. apply Z.div_le_upper_bound; lia. }
  destruct Hcase as [[H32 Hrun]|[[Hsmall [j [Hj [Hrun Hbr]]]]|[-> Hrun]]].
  - exists (round_down_safe d 32). split; [exact Hrun|].
    destruct (round_down_safe_multiple d 32) as [[q Hq] Hb]; [lia|].
    repeat split; try lia. left. split; [lia|].
    rewrite Hq, Z.mul_comm. apply Z_mod_mult.
  - exists (2 ^ j). split; [exact Hrun|].
    assert (0 < 2 ^ j) by (apply Z.pow_pos_nonneg; lia).
    repeat split; try lia. right. exists j. auto.
  - exists 1. split; [exact Hrun|]. repeat split; try lia.
    right. exists 0. split; [lia|reflexivity].
Qed.

(** C1 (as amended).  For every [uint32_t] input [dim >= 1],
    [calculate_pq_dim(dim)] returns the value described: [dim] halved when it
    is at least 128, rounded down to a multiple of 32, and, when that is 0,
    the largest power of two not above the (possibly halved) [dim].  For
    [dim = 0] it returns 1.  In particular it maps 512 to 256, 100 to 96 and
    10 to 8. *)
Theorem calculate_pq_dim_heuristic dim :
  Uint32.in_range dim ->
  (exists r, calculate_pq_dim dim = Some r /\
             (1 <= dim -> pq_dim_heuristic dim r) /\
             (dim = 0 -> r = 1)) /\
  calculate_pq_dim 512 = Some 256 /\
  calculate_pq_dim 100 = Some 96 /\
  calculate_pq_dim 10 = Some 8.
Proof.
  intros Hr. split; [|repeat split; reflexivity].
  destruct (calculate_pq_dim_cases dim Hr) as [d [Hhalf [Hkeep Hcase]]].
  destruct Hcase as [[H32 Hrun]|[[Hsmall [j [Hj [Hrun Hbr]]]]|[-> Hrun]]].
  - exists (round_down_safe d 32). split; [exact Hrun|]. split.
    + intros _. exists d, (round_down_safe d 32).
      pose proof (round_down_safe_multiple d 32 ltac:(lia)) as Hm.
      split; [exact Hhalf|]. split; [exact Hkeep|]. split; [exact Hm|].
      split; [reflexivity|].
      intros Hz. destruct Hm as [_ Hb]. lia.
    + intros ->. destruct (Z_lt_le_dec 0 128); [|lia].
      rewrite Hkeep in H32; lia.
  - exists (2 ^ j). split; [exact Hrun|]. split.
    + intros _. exists d, 0.
      split; [exact Hhalf|]. split; [exact Hkeep|]. split.
      * split; [exists 0|]; lia.
      * split; [lia|]. intros _. apply pow2_bracket_largest; assumption.
    + intros ->. rewrite Hkeep in Hsmall; lia.
  - exists 1. split; [exact Hrun|]. split; [lia|reflexivity].
Qed.

Lemma calculate_pq_dim_heuristic_witness :
  Uint32.in_range 10 /\
  ((exists r, calculate_pq_dim 10 = Some r /\
              (1 <= 10 -> pq_dim_heuristic 10 r) /\
              (10 = 0 -> r = 1)) /\
   calculate_pq_dim 512 = Some 256 /\
   calculate_pq_dim 100 = Some 96 /\
   calculate_pq_dim 10 = Some 8).
Proof.
  assert (H : Uint32.in_range 10) by (unfold Uint32.in_range, Uint32.modulus; lia).
  split; [exact H | exact (calculate_pq_dim_heuristic 10 H)].
Defined.

(** C1 (as stated) fails at [dim = 0]: the function returns 1, and no power
    of two is at most 0. *)
Lemma calculate_pq_dim_zero_not_heuristic :
  Uint32.in_range 0 /\
  calculate_pq_dim 0 = Some 1 /\
  ~ (exists r, calculate_pq_dim 0 = Some r /\ pq_dim_heuristic 0 r).
Proof.
  split; [unfold Uint32.in_range, Uint32.modulus; lia|].
  split; [reflexivity|].
  intros [r [_ [d [m [_ [Hkeep [[[q Hq] Hb] [_ Hpow]]]]]]]].
  rewrite Hkeep in * by lia.
  assert (m = 0) by lia.
  exact (no_power_of_two_le_0 r (Hpow H)).
Qed.

(** C10.  For every [uint32_t] input, [calculate_pq_dim] returns a value
    [>= 1] that is a positive multiple of 32 or a power of two; hence an
    index constructed with [pq_dim = 0] has a non-zero [pq_dim], and the
    division in [pq_len()] is defined for it. *)
Theorem calculate_pq_dim_never_zero dim :
  Uint32.in_range dim ->
  exists r,
    calculate_pq_dim dim = Some r /\ 1 <= r /\
    ((0 < r /\ r mod 32 = 0) \/ is_power_of_two r) /\
    forall handle metric kind n_lists pq_bits nnl self,
      ivf_pq.index_ctor handle metric kind n_lists dim pq_bits 0 nnl = Ok self ->
      ivf_pq.pq_dim self = r /\ ivf_pq.pq_dim self <> 0 /\
      exists len, ivf_pq.pq_len self = Some len.
Proof.
  intros Hr.
  destruct (calculate_pq_dim_positive dim Hr) as [r [Hrun [Hpos [_ Hshape]]]].
  exists r. split; [exact Hrun|]. split; [exact Hpos|]. split; [exact Hshape|].
  intros handle metric kind n_lists pq_bits nnl self Hctor.
  unfold ivf_pq.index_ctor in Hctor.
  change (0 =? 0) with true in Hctor. cbv iota in Hctor.
  rewrite Hrun in Hctor. simpl bind at 1 in Hctor.
  assert (Hpq : ivf_pq.pq_dim self = r).
  { repeat match type of Hctor with
           | bind ?c _ = Ok _ => destruct c; simpl bind at 1 in Hctor; [|discriminate]
           end.
    inversion Hctor. reflexivity. }
  split; [exact Hpq|]. split; [lia|].
  unfold ivf_pq.pq_len, div_rounding_up_unsafe.
  rewrite Hpq. destruct (r =? 0) eqn:Hz; [apply Z.eqb_eq in Hz; lia|].
  eexists. reflexivity.
Qed.

Lemma calculate_pq_dim_never_zero_witness :
  Uint32.in_range 0 /\
  exists r,
    calculate_pq_dim 0 = Some r /\ 1 <= r /\
    ((0 < r /\ r mod 32 = 0) \/ is_power_of_two r) /\
    forall handle metric kind n_lists pq_bits nnl self,
      ivf_pq.index_ctor handle metric kind n_lists 0 pq_bits 0 nnl = Ok self ->
      ivf_pq.pq_dim self = r /\ ivf_pq.pq_dim self <> 0 /\
      exists len, ivf_pq.pq_len self = Some len.
Proof.
  assert (H : Uint32.in_range 0)
    by (unfold Uint32.in_range, Uint32.modulus; lia).
  split; [exact H | exact (calculate_pq_dim_never_zero 0 H)].
Defined.

(** ** Construction and allocation, step by step *)

Ltac step_bind H x E :=
  match type of H with
  | bind ?c _ = Ok _ =>
      destruct c as [x|] eqn:E; simpl bind at 1 in H; [|discriminate H]
  end.

Lemma make_device_mdarray_Ok handle t exts a :
  make_device_mdarray handle t exts = Ok a ->
  can_allocate handle t exts = true /\ a = uninitialised t exts.
Proof.
  unfold make_device_mdarray. destruct (can_allocate handle t exts).
  - intros H. inversion H. auto.
  - discriminate.
Qed.

Lemma make_device_mdarray_Err handle t exts e :
  make_device_mdarray handle t exts = Err e ->
  can_allocate handle t exts = false /\ e = bad_alloc.
Proof.
  unfold make_device_mdarray. destruct (can_allocate handle t exts).
  - discriminate.
  - intros H. inversion H. auto.
Qed.

(** A constructor call that returns has derived [pq_dim], chosen the
    extents of [pq_centers], evaluated [rot_dim()], passed
    [check_consistency], and built [empty_index]. *)
Lemma index_ctor_Ok handle metric kind n_lists dim pq_bits pq_dim nnl self :
  ivf_pq.index_ctor handle metric kind n_lists dim pq_bits pq_dim nnl = Ok self ->
  exists derived centers_exts rot,
    (if pq_dim =? 0 then calculate_pq_dim dim = Some derived
     else derived = pq_dim) /\
    let s := {| ivf_pq.metric_ := metric;
                ivf_pq.codebook_kind_ := kind;
                ivf_pq.n_lists_ := n_lists;
                ivf_pq.dim_ := dim;
                ivf_pq.pq_bits_ := pq_bits;
                ivf_pq.pq_dim_ := derived;
                ivf_pq.n_nonempty_lists_ := nnl |} in
    ivf_pq.make_pq_centers_extents s = Ok centers_exts /\
    ivf_pq.rot_dim s = Some rot /\
    ivf_pq.check_consistency s = Ok tt /\
    self = empty_index s centers_exts rot.
Proof.
  unfold ivf_pq.index_ctor. intros H.
  step_bind H derived Ederived.
  step_bind H centers_exts Eexts.
  step_bind H a1 E1. step_bind H a2 E2. step_bind H a3 E3.
  step_bind H rot Erot.
  step_bind H a4 E4. step_bind H a5 E5. step_bind H a6 E6.
  step_bind H a7 E7.
  step_bind H u Echeck. destruct u.
  inversion H as [Hself]. clear H.
  exists derived, centers_exts, rot.
  repeat match goal with
         | E : make_device_mdarray _ _ _ = Ok _ |- _ =>
             apply make_device_mdarray_Ok in E; destruct E as [_ ->]
         end.
  split.
  { destruct (pq_dim =? 0).
    - destruct (calculate_pq_dim dim); simpl in Ederived;
        inversion Ederived; reflexivity.
    - inversion Ederived; reflexivity. }
  cbv zeta. split; [exact Eexts|]. split.
  { destruct (ivf_pq.rot_dim _); simpl in Erot; inversion Erot; reflexivity. }
  split; [exact Echeck|reflexivity].
Qed.

(** [allocate], by the answers of the allocator to its two requests. *)
Lemma allocate_cases handle index_size self :
  let codes := uninitialised uint8_t
                 [index_size; extent (ivf_pq.pq_dataset_ self) 1] in
  let ids := uninitialised IdxT_t [index_size] in
  ivf_pq.allocate handle index_size self =
    if can_allocate handle uint8_t
         [index_size; extent (ivf_pq.pq_dataset_ self) 1]
    then if can_allocate handle IdxT_t [index_size]
         then (ivf_pq.set_indices ids (ivf_pq.set_pq_dataset codes self),
               ivf_pq.check_consistency self)
         else (ivf_pq.set_pq_dataset codes self, Err bad_alloc)
    else (self, Err bad_alloc).
Proof.
  unfold ivf_pq.allocate, make_device_mdarray.
  destruct (can_allocate handle uint8_t _); [|reflexivity].
  destruct (can_allocate handle IdxT_t _); reflexivity.
Qed.

(** ** The invariant holds of every object *)

Lemma extent_pq_dataset_inv self :
  index_inv self ->
  extent (ivf_pq.pq_dataset_ self) 1 =
    Uint32.mul (ivf_pq.pq_dim self) (ivf_pq.pq_bits self) / 8.
Proof.
  intros Hinv. destruct (inv_pq_dataset self Hinv) as [n_codes Hexts].
  unfold extent. rewrite Hexts. reflexivity.
Qed.

Lemma index_inv_set_pq_dataset self n :
  index_inv self ->
  index_inv
    (ivf_pq.set_pq_dataset
       (uninitialised uint8_t [n; extent (ivf_pq.pq_dataset_ self) 1]) self).
Proof.
  intros Hinv. rewrite (extent_pq_dataset_inv self Hinv).
  destruct Hinv. constructor; try assumption.
  exists n. reflexivity.
Qed.

Lemma index_inv_set_indices self n :
  index_inv self ->
  index_inv (ivf_pq.set_indices (uninitialised IdxT_t [n]) self).
Proof.
  intros Hinv. destruct Hinv. constructor; try assumption.
  exists n. reflexivity.
Qed.

Lemma index_inv_store which offset value self :
  index_inv self ->
  index_inv (ivf_pq.store_through which offset value self).
Proof.
  intros Hinv. destruct Hinv.
  constructor; try assumption; destruct which; assumption.
Qed.

Lemma index_inv_ctor handle metric kind n_lists dim pq_bits pq_dim nnl self :
  Uint32.in_range n_lists -> Uint32.in_range dim ->
  Uint32.in_range pq_bits -> Uint32.in_range pq_dim ->
  ivf_pq.index_ctor handle metric kind n_lists dim pq_bits pq_dim nnl = Ok self ->
  index_inv self.
Proof.
  intros Hn Hd Hb Hp Hctor.
  destruct (index_ctor_Ok _ _ _ _ _ _ _ _ _ Hctor)
    as [derived [c [r [Hder [Hc [Hr [Hchk ->]]]]]]].
  assert (Hrange : Uint32.in_range derived /\ derived <> 0).
  { destruct (pq_dim =? 0) eqn:Hz.
    - destruct (calculate_pq_dim_positive dim Hd) as [r' [Hrun [Hpos [Hle _]]]].
      rewrite Hrun in Hder. inversion Hder. subst r'.
      unfold Uint32.in_range, Uint32.modulus in *. lia.
    - apply Z.eqb_neq in Hz. subst derived. auto. }
  destruct Hrange as [Hrange Hnz].
  constructor; simpl; try assumption; try reflexivity.
  - exists 0. reflexivity.
  - exists 0. reflexivity.
  - exists r. auto.
Qed.

Lemma index_inv_allocate handle index_size self self' outcome :
  index_inv self ->
  ivf_pq.allocate handle index_size self = (self', outcome) ->
  index_inv self'.
Proof.
  intros Hinv. rewrite allocate_cases. cbv zeta.
  destruct (can_allocate handle uint8_t _);
    [destruct (can_allocate handle IdxT_t _)|];
    intros H; inversion H; subst; clear H.
  - apply index_inv_set_indices, index_inv_set_pq_dataset, Hinv.
  - apply index_inv_set_pq_dataset, Hinv.
  - exact Hinv.
Qed.

Lemma reachable_inv self : ivf_pq.reachable self -> index_inv self.
Proof.
  induction 1 as [handle metric kind n_lists dim pq_bits pq_dim nnl self
                    Hn Hd Hb Hp _ Hctor
                 | handle index_size self self' outcome _ IH Halloc
                 | which offset value self _ IH _].
  - exact (index_inv_ctor _ _ _ _ _ _ _ _ _ Hn Hd Hb Hp Hctor).
  - exact (index_inv_allocate _ _ _ _ _ IH Halloc).
  - exact (index_inv_store _ _ _ _ IH).
Qed.

(** What a returning call of [allocate] leaves behind. *)
Lemma allocate_Ok handle index_size self self' :
  index_inv self ->
  ivf_pq.allocate handle index_size self = (self', Ok tt) ->
  self' =
    ivf_pq.set_indices (uninitialised IdxT_t [index_size])
      (ivf_pq.set_pq_dataset
         (uninitialised uint8_t
            [index_size;
             Uint32.mul (ivf_pq.pq_dim self) (ivf_pq.pq_bits self) / 8])
         self).
Proof.
  intros Hinv Halloc.
  rewrite allocate_cases in Halloc. cbv zeta in Halloc.
  rewrite (extent_pq_dataset_inv self Hinv) in Halloc.
  destruct (can_allocate handle uint8_t _);
    [destruct (can_allocate handle IdxT_t _)|];
    inversion Halloc; reflexivity.
Qed.

(** ** The example index *)

Lemma in_range_small x : 0 <= x < 4294967296 -> Uint32.in_range x.
Proof. unfold Uint32.in_range, Uint32.modulus. lia. Qed.

Lemma small_index_ctor handle :
  (forall t exts, request_bytes t exts <= 16384 ->
                  can_allocate handle t exts = true) ->
  ivf_pq.index_ctor handle 0 ivf_pq.PER_SUBSPACE 1 8 8 4 0 = Ok small_index.
Proof.
  intros Hroom. unfold ivf_pq.index_ctor, make_device_mdarray. simpl.
  rewrite !Hroom by (vm_compute; discriminate).
  reflexivity.
Qed.

Lemma small_index_reachable : ivf_pq.reachable small_index.
Proof.
  apply (ivf_pq.reachable_ctor unlimited_handle 0 ivf_pq.PER_SUBSPACE 1 8 8 4 0);
    try (apply in_range_small; lia).
  apply small_index_ctor. reflexivity.
Qed.

(** ** [allocate] *)

(** C3 (as amended).  After a call [allocate(n)] that returns, on any
    object: [size()] is [n], [indices] has extent [n], [pq_dataset] has shape
    [[n, w]] with [w] the [uint32_t] value of [pq_dim*pq_bits/8], which is
    [pq_dim*pq_bits/8] whenever [pq_dim*pq_bits < 2^32]; the five other
    arrays and the scalar members are the ones from before the call; and
    [list_offsets] still has as extent the [uint32_t] value of [n_lists+1],
    which is [n_lists+1] whenever [n_lists + 1 < 2^32]. *)
Theorem allocate_success self handle n self' :
  ivf_pq.reachable self ->
  ivf_pq.allocate handle n self = (self', Ok tt) ->
  ivf_pq.size self' = n /\
  extents (ivf_pq.indices_ self') = [n] /\
  extents (ivf_pq.pq_dataset_ self') =
    [n; Uint32.mul (ivf_pq.pq_dim self') (ivf_pq.pq_bits self') / 8] /\
  ivf_pq.pq_centers_ self' = ivf_pq.pq_centers_ self /\
  ivf_pq.rotation_matrix_ self' = ivf_pq.rotation_matrix_ self /\
  ivf_pq.list_offsets_ self' = ivf_pq.list_offsets_ self /\
  ivf_pq.centers_ self' = ivf_pq.centers_ self /\
  ivf_pq.centers_rot_ self' = ivf_pq.centers_rot_ self /\
  ivf_pq.scalars self' = ivf_pq.scalars self /\
  extents (ivf_pq.list_offsets_ self') =
    [Uint32.add (ivf_pq.n_lists self') 1] /\
  (ivf_pq.pq_dim self' * ivf_pq.pq_bits self' < 2 ^ 32 ->
   extents (ivf_pq.pq_dataset_ self') =
     [n; ivf_pq.pq_dim self' * ivf_pq.pq_bits self' / 8]) /\
  (ivf_pq.n_lists self' + 1 < 2 ^ 32 ->
   extents (ivf_pq.list_offsets_ self') = [ivf_pq.n_lists self' + 1]).
Proof.
  intros Hreach Halloc.
  pose proof (reachable_inv self Hreach) as Hinv.
  rewrite (allocate_Ok handle n self self' Hinv Halloc).
  cbn [ivf_pq.size ivf_pq.set_indices ivf_pq.set_pq_dataset ivf_pq.scalars
       ivf_pq.indices_ ivf_pq.pq_dataset_ ivf_pq.pq_centers_
       ivf_pq.rotation_matrix_ ivf_pq.list_offsets_ ivf_pq.centers_
       ivf_pq.centers_rot_ uninitialised extents extent nth].
  rewrite (inv_list_offsets self Hinv).
  destruct Hinv as [[Hn0 _] _ [Hb0 _] [Hp0 _] _ _ _ _ _ _ _ _].
  repeat (split; [reflexivity|]).
  split.
  - intros Hfit. unfold Uint32.mul.
    rewrite wrap_small; [reflexivity|].
    unfold Uint32.in_range, Uint32.modulus. split; [nia|exact Hfit].
  - intros Hfit. unfold Uint32.add.
    rewrite wrap_small; [reflexivity|].
    unfold Uint32.in_range, Uint32.modulus. lia.
Qed.

Lemma allocate_success_witness :
  let self' :=
    ivf_pq.set_indices (uninitialised IdxT_t [5])
      (ivf_pq.set_pq_dataset (uninitialised uint8_t [5; 4]) small_index) in
  ivf_pq.reachable small_index /\
  ivf_pq.allocate unlimited_handle 5 small_index = (self', Ok tt) /\
  ivf_pq.size self' = 5 /\
  extents (ivf_pq.indices_ self') = [5] /\
  extents (ivf_pq.pq_dataset_ self') =
    [5; Uint32.mul (ivf_pq.pq_dim self') (ivf_pq.pq_bits self') / 8] /\
  ivf_pq.pq_centers_ self' = ivf_pq.pq_centers_ small_index /\
  ivf_pq.rotation_matrix_ self' = ivf_pq.rotation_matrix_ small_index /\
  ivf_pq.list_offsets_ self' = ivf_pq.list_offsets_ small_index /\
  ivf_pq.centers_ self' = ivf_pq.centers_ small_index /\
  ivf_pq.centers_rot_ self' = ivf_pq.centers_rot_ small_index /\
  ivf_pq.scalars self' = ivf_pq.scalars small_index /\
  extents (ivf_pq.list_offsets_ self') =
    [Uint32.add (ivf_pq.n_lists self') 1] /\
  (ivf_pq.pq_dim self' * ivf_pq.pq_bits self' < 2 ^ 32 ->
   extents (ivf_pq.pq_dataset_ self') =
     [5; ivf_pq.pq_dim self' * ivf_pq.pq_bits self' / 8]) /\
  (ivf_pq.n_lists self' + 1 < 2 ^ 32 ->
   extents (ivf_pq.list_offsets_ self') = [ivf_pq.n_lists self' + 1]).
Proof.
  intros self'.
  split; [exact small_index_reachable|]. split; [reflexivity|].
  exact (allocate_success small_index unlimited_handle 5 self'
           small_index_reachable eq_refl).
Defined.

(** C3 (as stated) fails where the [uint32_t] arithmetic of the shapes
    wraps.  For [pq_dim = 2^29], [pq_bits = 8] the constructor returns on a
    device that satisfies requests of up to [2^35] bytes, and after
    [allocate(5)] the rows of [pq_dataset] have width
    [(2^32 mod 2^32) / 8 = 0], not [pq_dim*pq_bits/8 = 2^29].  For
    [n_lists = 2^32 - 1], with room on the device, [list_offsets] has extent
    [(2^32) mod 2^32 = 0] before and after [allocate(5)], not
    [n_lists + 1]. *)
Lemma allocate_shape_wraps :
  (ivf_pq.index_ctor (capacity_handle (2 ^ 35)) 0 ivf_pq.PER_CLUSTER
     1 8 8 (2 ^ 29) 0 = Ok packed_index /\
   exists self',
     ivf_pq.allocate (capacity_handle (2 ^ 35)) 5 packed_index
       = (self', Ok tt) /\
     extents (ivf_pq.pq_dataset_ self') = [5; 0] /\
     ivf_pq.pq_dim self' * ivf_pq.pq_bits self' / 8 = 2 ^ 29 /\
     extents (ivf_pq.pq_dataset_ self') <>
       [5; ivf_pq.pq_dim self' * ivf_pq.pq_bits self' / 8]) /\
  (ivf_pq.index_ctor unlimited_handle 0 ivf_pq.PER_SUBSPACE
     (2 ^ 32 - 1) 8 8 4 0 = Ok many_lists_index /\
   exists self',
     ivf_pq.allocate unlimited_handle 5 many_lists_index = (self', Ok tt) /\
     extents (ivf_pq.list_offsets_ self') = [0] /\
     ivf_pq.n_lists self' + 1 = 2 ^ 32 /\
     extents (ivf_pq.list_offsets_ self') <> [ivf_pq.n_lists self' + 1]).
Proof.
  split.
  - split; [vm_compute; reflexivity|].
    eexists. split; [vm_compute; reflexivity|].
    split; [reflexivity|]. split; [reflexivity|].
    vm_compute. discriminate.
  - split; [vm_compute; reflexivity|].
    eexists. split; [vm_compute; reflexivity|].
    split; [reflexivity|]. split; [reflexivity|].
    vm_compute. discriminate.
Qed.

(** C4 (as amended).  On any object, [allocate(n)] fails only with an
    allocation failure, never with a validation failure.  When the request
    for the [pq_dataset] buffer is refused the object is left as it was; when
    the request for the [indices] buffer is refused the object is left with
    the new [n]-row [pq_dataset] and its previous [indices], every other
    member as before. *)
Theorem allocate_failure self handle n self' e :
  ivf_pq.reachable self ->
  ivf_pq.allocate handle n self = (self', Err e) ->
  e = bad_alloc /\
  ((can_allocate handle uint8_t [n; extent (ivf_pq.pq_dataset_ self) 1] = false /\
    self' = self) \/
   (can_allocate handle uint8_t [n; extent (ivf_pq.pq_dataset_ self) 1] = true /\
    can_allocate handle IdxT_t [n] = false /\
    self' =
      ivf_pq.set_pq_dataset
        (uninitialised uint8_t [n; extent (ivf_pq.pq_dataset_ self) 1]) self)).
Proof.
  intros Hreach Halloc.
  pose proof (reachable_inv self Hreach) as Hinv.
  rewrite allocate_cases in Halloc. cbv zeta in Halloc.
  destruct (can_allocate handle uint8_t _) eqn:Hcodes;
    [destruct (can_allocate handle IdxT_t _) eqn:Hids|];
    inversion Halloc; subst; clear Halloc.
  - rewrite (inv_consistent self Hinv) in *. discriminate.
  - split; [reflexivity|]. right. auto.
  - split; [reflexivity|]. left. auto.
Qed.

Lemma allocate_failure_witness :
  let handle := capacity_handle 16384 in
  let self' :=
    ivf_pq.set_pq_dataset (uninitialised uint8_t [3000; 4]) small_index in
  ivf_pq.reachable small_index /\
  ivf_pq.allocate handle 3000 small_index = (self', Err bad_alloc) /\
  bad_alloc = bad_alloc /\
  ((can_allocate handle uint8_t
      [3000; extent (ivf_pq.pq_dataset_ small_index) 1] = false /\
    self' = small_index) \/
   (can_allocate handle uint8_t
      [3000; extent (ivf_pq.pq_dataset_ small_index) 1] = true /\
    can_allocate handle IdxT_t [3000] = false /\
    self' =
      ivf_pq.set_pq_dataset
        (uninitialised uint8_t
           [3000; extent (ivf_pq.pq_dataset_ small_index) 1]) small_index)).
Proof.
  intros handle self'.
  split; [exact small_index_reachable|]. split; [reflexivity|].
  exact (allocate_failure small_index handle 3000 self' bad_alloc
           small_index_reachable eq_refl).
Defined.

(** C4 (as stated) fails: on a device that satisfies requests of up to 16384
    bytes, the index of the example is constructed, and [allocate(3000)] then
    obtains the 12000 bytes of [pq_dataset] but not the 24000 bytes of
    [indices]; the call throws and leaves 3000 rows of codes next to 0
    ids. *)
Lemma allocate_not_atomic :
  ivf_pq.index_ctor (capacity_handle 16384) 0 ivf_pq.PER_SUBSPACE 1 8 8 4 0
    = Ok small_index /\
  extent (ivf_pq.pq_dataset_ small_index) 0 =
    extent (ivf_pq.indices_ small_index) 0 /\
  exists self',
    ivf_pq.allocate (capacity_handle 16384) 3000 small_index
      = (self', Err bad_alloc) /\
    self' <> small_index /\
    extent (ivf_pq.pq_dataset_ self') 0 = 3000 /\
    extent (ivf_pq.indices_ self') 0 = 0 /\
    extent (ivf_pq.pq_dataset_ self') 0 <> extent (ivf_pq.indices_ self') 0.
Proof.
  split; [reflexivity|]. split; [reflexivity|].
  eexists. split; [reflexivity|].
  split; [|split; [reflexivity|split; [reflexivity|discriminate]]].
  intros Heq. apply (f_equal (fun i => extent (ivf_pq.pq_dataset_ i) 0)) in Heq.
  discriminate Heq.
Qed.

(** C5 (as amended).  After a construction that returns and after every
    call of [allocate] that returns, [size() == indices.extent(0) ==
    pq_dataset.extent(0)], and [list_offsets.extent(0)] is the [uint32_t]
    value of [n_lists+1], which is [n_lists+1] whenever
    [n_lists + 1 < 2^32].  Neither operation writes to [list_offsets]: the
    constructor leaves every cell of it uninitialised, and [allocate] hands
    the array on as it is. *)
Theorem extents_after_mutation self :
  ivf_pq.reachable self ->
  (forall handle metric kind n_lists dim pq_bits pq_dim nnl,
      ivf_pq.index_ctor handle metric kind n_lists dim pq_bits pq_dim nnl
        = Ok self ->
      extent (ivf_pq.list_offsets_ self) 0 = Uint32.add (ivf_pq.n_lists self) 1 /\
      ivf_pq.size self = extent (ivf_pq.indices_ self) 0 /\
      extent (ivf_pq.indices_ self) 0 = extent (ivf_pq.pq_dataset_ self) 0 /\
      ivf_pq.size self = 0 /\
      (forall i, cells (ivf_pq.list_offsets_ self) i = None) /\
      (ivf_pq.n_lists self + 1 < 2 ^ 32 ->
       extent (ivf_pq.list_offsets_ self) 0 = ivf_pq.n_lists self + 1)) /\
  (forall handle n self',
      ivf_pq.allocate handle n self = (self', Ok tt) ->
      extent (ivf_pq.list_offsets_ self') 0
        = Uint32.add (ivf_pq.n_lists self') 1 /\
      ivf_pq.size self' = extent (ivf_pq.indices_ self') 0 /\
      extent (ivf_pq.indices_ self') 0 = extent (ivf_pq.pq_dataset_ self') 0 /\
      ivf_pq.list_offsets_ self' = ivf_pq.list_offsets_ self /\
      (ivf_pq.n_lists self' + 1 < 2 ^ 32 ->
       extent (ivf_pq.list_offsets_ self') 0 = ivf_pq.n_lists self' + 1)).
Proof.
  intros Hreach.
  pose proof (reachable_inv self Hreach) as Hinv.
  assert (Hexact : ivf_pq.n_lists self + 1 < 2 ^ 32 ->
                   Uint32.add (ivf_pq.n_lists self) 1 = ivf_pq.n_lists self + 1).
  { intros Hfit. destruct (inv_n_lists self Hinv) as [Hlo _].
    unfold Uint32.add. apply wrap_small.
    unfold Uint32.in_range, Uint32.modulus. lia. }
  pose proof (inv_list_offsets self Hinv) as Hoff.
  split.
  - intros handle metric kind n_lists dim pq_bits pq_dim nnl Hctor.
    destruct (index_ctor_Ok _ _ _ _ _ _ _ _ _ Hctor)
      as [derived [c [r [_ [_ [_ [_ Hself]]]]]]].
    split; [unfold extent; rewrite Hoff; reflexivity|].
    split; [reflexivity|].
    split; [rewrite Hself; reflexivity|].
    split; [rewrite Hself; reflexivity|].
    split; [rewrite Hself; reflexivity|].
    intros Hfit. unfold extent. rewrite Hoff. exact (Hexact Hfit).
  - intros handle n self' Halloc.
    rewrite (allocate_Ok handle n self self' Hinv Halloc).
    unfold ivf_pq.size, extent.
    cbn [ivf_pq.set_indices ivf_pq.set_pq_dataset ivf_pq.scalars
         ivf_pq.indices_ ivf_pq.pq_dataset_ ivf_pq.list_offsets_
         uninitialised extents].
    rewrite Hoff. cbn [nth].
    repeat (split; [reflexivity|]). exact Hexact.
Qed.

Lemma extents_after_mutation_witness :
  ivf_pq.reachable small_index /\
  (forall handle metric kind n_lists dim pq_bits pq_dim nnl,
      ivf_pq.index_ctor handle metric kind n_lists dim pq_bits pq_dim nnl
        = Ok small_index ->
      extent (ivf_pq.list_offsets_ small_index) 0
        = Uint32.add (ivf_pq.n_lists small_index) 1 /\
      ivf_pq.size small_index = extent (ivf_pq.indices_ small_index) 0 /\
      extent (ivf_pq.indices_ small_index) 0
        = extent (ivf_pq.pq_dataset_ small_index) 0 /\
      ivf_pq.size small_index = 0 /\
      (forall i, cells (ivf_pq.list_offsets_ small_index) i = None) /\
      (ivf_pq.n_lists small_index + 1 < 2 ^ 32 ->
       extent (ivf_pq.list_offsets_ small_index) 0
         = ivf_pq.n_lists small_index + 1)) /\
  (forall handle n self',
      ivf_pq.allocate handle n small_index = (self', Ok tt) ->
      extent (ivf_pq.list_offsets_ self') 0
        = Uint32.add (ivf_pq.n_lists self') 1 /\
      ivf_pq.size self' = extent (ivf_pq.indices_ self') 0 /\
      extent (ivf_pq.indices_ self') 0 = extent (ivf_pq.pq_dataset_ self') 0 /\
      ivf_pq.list_offsets_ self' = ivf_pq.list_offsets_ small_index /\
      (ivf_pq.n_lists self' + 1 < 2 ^ 32 ->
       extent (ivf_pq.list_offsets_ self') 0 = ivf_pq.n_lists self' + 1)).
Proof.
  split; [exact small_index_reachable|].
  exact (extents_after_mutation small_index small_index_reachable).
Defined.

(** C5 (as stated) fails in its clause on the final entry of
    [list_offsets].  The example index is constructed, and the last cell of
    [list_offsets] is uninitialised.  After [allocate(5)] and a store of 5
    into that cell through the view, the cell holds [size()]; a further
    [allocate(7)] returns with [size() == 7] and the cell still holding 5.
    It also fails at [n_lists = 2^32 - 1], where the constructed index has a
    [list_offsets] of extent 0, not [n_lists + 1], and so no final entry. *)
Lemma list_offsets_back_not_size :
  let allocated :=
    ivf_pq.set_indices (uninitialised IdxT_t [5])
      (ivf_pq.set_pq_dataset (uninitialised uint8_t [5; 4]) small_index) in
  let populated := ivf_pq.store_through ivf_pq.list_offsets 1 5 allocated in
  ivf_pq.index_ctor unlimited_handle 0 ivf_pq.PER_SUBSPACE 1 8 8 4 0
    = Ok small_index /\
  ivf_pq.list_offsets_back small_index = None /\
  ivf_pq.allocate unlimited_handle 5 small_index = (allocated, Ok tt) /\
  ivf_pq.list_offsets_back allocated = None /\
  ivf_pq.list_offsets_back populated = Some (ivf_pq.size populated) /\
  (exists self',
    ivf_pq.allocate unlimited_handle 7 populated = (self', Ok tt) /\
    ivf_pq.size self' = 7 /\
    extent (ivf_pq.list_offsets_ self') 0 = 2 /\
    ivf_pq.list_offsets_back self' = Some 5 /\
    ivf_pq.list_offsets_back self' <> Some (ivf_pq.size self')) /\
  ivf_pq.index_ctor unlimited_handle 0 ivf_pq.PER_SUBSPACE
    (2 ^ 32 - 1) 8 8 4 0 = Ok many_lists_index /\
  extent (ivf_pq.list_offsets_ many_lists_index) 0 = 0 /\
  extent (ivf_pq.list_offsets_ many_lists_index) 0
    <> ivf_pq.n_lists many_lists_index + 1.
Proof.
  intros allocated populated.
  do 5 (split; [reflexivity|]).
  split.
  - eexists. split; [reflexivity|].
    repeat (split; [reflexivity|]). discriminate.
  - split; [vm_compute; reflexivity|]. split; [reflexivity|].
    vm_compute. discriminate.
Qed.

(** ** Validation and the codebook switch *)

Lemma check_consistency_Ok s :
  ivf_pq.check_consistency s = Ok tt <->
  4 <= ivf_pq.pq_bits s <= 8 /\
  Uint32.mul (ivf_pq.pq_bits s) (ivf_pq.pq_dim s) mod 8 = 0.
Proof.
  unfold ivf_pq.check_consistency.
  destruct (4 <=? ivf_pq.pq_bits s) eqn:Hlo;
    destruct (ivf_pq.pq_bits s <=? 8) eqn:Hhi; simpl;
    try (destruct (_ mod 8 =? 0) eqn:Hm);
    rewrite ?Z.leb_le, ?Z.leb_gt, ?Z.eqb_eq, ?Z.eqb_neq in *;
    split; intros H; try discriminate; try lia; auto.
Qed.

Lemma check_consistency_Err s e :
  ivf_pq.check_consistency s = Err e ->
  (e = expects_pq_bits (ivf_pq.pq_bits s) /\ ~ 4 <= ivf_pq.pq_bits s <= 8) \/
  (e = expects_pq_dim (ivf_pq.pq_bits s) (ivf_pq.pq_dim s)
         (Uint32.mul (ivf_pq.pq_bits s) (ivf_pq.pq_dim s)) /\
   4 <= ivf_pq.pq_bits s <= 8 /\
   Uint32.mul (ivf_pq.pq_bits s) (ivf_pq.pq_dim s) mod 8 <> 0).
Proof.
  unfold ivf_pq.check_consistency.
  destruct (4 <=? ivf_pq.pq_bits s) eqn:Hlo;
    destruct (ivf_pq.pq_bits s <=? 8) eqn:Hhi; simpl;
    try (destruct (_ mod 8 =? 0) eqn:Hm);
    rewrite ?Z.leb_le, ?Z.leb_gt, ?Z.eqb_eq, ?Z.eqb_neq in *;
    intros H; inversion H; subst; try (left; split; [reflexivity|lia]).
  right. split; [reflexivity|]. split; [lia|assumption].
Qed.

Lemma make_pq_centers_extents_Ok s exts :
  ivf_pq.make_pq_centers_extents s = Ok exts ->
  exists book len,
    ivf_pq.pq_book_size s = Some book /\ ivf_pq.pq_len s = Some len /\
    ((ivf_pq.codebook_kind s = ivf_pq.PER_SUBSPACE /\
      exts = [ivf_pq.pq_dim s; book; len]) \/
     (ivf_pq.codebook_kind s = ivf_pq.PER_CLUSTER /\
      exts = [ivf_pq.n_lists s; book; len])).
Proof.
  unfold ivf_pq.make_pq_centers_extents.
  destruct (ivf_pq.codebook_kind s =? ivf_pq.PER_SUBSPACE) eqn:Hs;
    [|destruct (ivf_pq.codebook_kind s =? ivf_pq.PER_CLUSTER) eqn:Hc];
    try discriminate;
    destruct (ivf_pq.pq_book_size s) as [book|]; try discriminate;
    destruct (ivf_pq.pq_len s) as [len|]; try discriminate;
    simpl; intros H; inversion H; exists book, len;
    rewrite ?Z.eqb_eq in *; auto.
Qed.

Lemma make_pq_centers_extents_Err s e :
  ivf_pq.make_pq_centers_extents s = Err e ->
  (e = fail_unreachable /\
   ivf_pq.codebook_kind s <> ivf_pq.PER_SUBSPACE /\
   ivf_pq.codebook_kind s <> ivf_pq.PER_CLUSTER) \/
  (e = undefined_behaviour /\
   (ivf_pq.pq_book_size s = None \/ ivf_pq.pq_len s = None)).
Proof.
  unfold ivf_pq.make_pq_centers_extents.
  destruct (ivf_pq.codebook_kind s =? ivf_pq.PER_SUBSPACE) eqn:Hs;
    [|destruct (ivf_pq.codebook_kind s =? ivf_pq.PER_CLUSTER) eqn:Hc].
  3: { intros H. inversion H. left. rewrite Z.eqb_neq in *. auto. }
  all: destruct (ivf_pq.pq_book_size s) as [book|];
    [destruct (ivf_pq.pq_len s) as [len|]|];
    simpl; intros H; inversion H; auto.
Qed.

Lemma make_pq_centers_extents_unreachable s :
  ivf_pq.codebook_kind s <> ivf_pq.PER_SUBSPACE ->
  ivf_pq.codebook_kind s <> ivf_pq.PER_CLUSTER ->
  ivf_pq.make_pq_centers_extents s = Err fail_unreachable.
Proof.
  intros Hs Hc. unfold ivf_pq.make_pq_centers_extents.
  apply Z.eqb_neq in Hs, Hc. rewrite Hs, Hc. reflexivity.
Qed.

(** How a constructor call that throws got there: the exception comes out
    of the codebook switch, of an allocation, or of [check_consistency], in
    each case on the scalars with [pq_dim] already derived. *)
Lemma index_ctor_Err handle metric kind n_lists dim pq_bits pq_dim nnl e :
  Uint32.in_range dim ->
  ivf_pq.index_ctor handle metric kind n_lists dim pq_bits pq_dim nnl = Err e ->
  exists derived,
    (if pq_dim =? 0 then calculate_pq_dim dim = Some derived
     else derived = pq_dim) /\
    let s := {| ivf_pq.metric_ := metric;
                ivf_pq.codebook_kind_ := kind;
                ivf_pq.n_lists_ := n_lists;
                ivf_pq.dim_ := dim;
                ivf_pq.pq_bits_ := pq_bits;
                ivf_pq.pq_dim_ := derived;
                ivf_pq.n_nonempty_lists_ := nnl |} in
    ivf_pq.make_pq_centers_extents s = Err e \/
    e = bad_alloc \/
    (e = undefined_behaviour /\ ivf_pq.rot_dim s = None) \/
    ivf_pq.check_consistency s = Err e.
Proof.
  intros Hd. unfold ivf_pq.index_ctor.
  destruct (calculate_pq_dim_positive dim Hd) as [heuristic [Hrun _]].
  set (first := if pq_dim =? 0 then _ else _).
  assert (Hfirst : exists derived,
             first = Ok derived /\
             (if pq_dim =? 0 then calculate_pq_dim dim = Some derived
              else derived = pq_dim)).
  { subst first. destruct (pq_dim =? 0).
    - exists heuristic. rewrite Hrun. auto.
    - exists pq_dim. auto. }
  destruct Hfirst as [derived [-> Hder]]. simpl bind at 1.
  intros H. exists derived. split; [exact Hder|]. cbv zeta.
  repeat match type of H with
         | bind (make_device_mdarray ?h ?t ?x) _ = Err _ =>
             let E := fresh "E" in
             destruct (make_device_mdarray h t x) eqn:E; simpl bind at 1 in H;
             [|apply make_device_mdarray_Err in E; destruct E as [_ ->];
               inversion H; auto]
         | bind (ivf_pq.make_pq_centers_extents ?s) _ = Err _ =>
             destruct (ivf_pq.make_pq_centers_extents s); simpl bind at 1 in H;
             [|inversion H; auto]
         | bind (of_option _ (ivf_pq.rot_dim ?s)) _ = Err _ =>
             destruct (ivf_pq.rot_dim s); simpl bind at 1 in H;
             [|inversion H; auto]
         | bind (ivf_pq.check_consistency ?s) _ = Err _ =>
             destruct (ivf_pq.check_consistency s) eqn:Echeck;
             simpl bind at 1 in H; [discriminate H|inversion H; subst; auto]
         end.
Qed.

(** When the allocator satisfies every request, the codebook mode is one of
    the two enumerators and the shift [1 << pq_bits] is defined, the
    constructor reaches [check_consistency], and its result is decided
    there. *)
Lemma index_ctor_reaches_check handle metric kind n_lists dim pq_bits pq_dim nnl
      derived :
  (if pq_dim =? 0 then calculate_pq_dim dim = Some derived
   else derived = pq_dim) ->
  derived <> 0 ->
  kind = ivf_pq.PER_SUBSPACE \/ kind = ivf_pq.PER_CLUSTER ->
  pq_bits < 32 ->
  (forall t exts, can_allocate handle t exts = true) ->
  let s := {| ivf_pq.metric_ := metric;
              ivf_pq.codebook_kind_ := kind;
              ivf_pq.n_lists_ := n_lists;
              ivf_pq.dim_ := dim;
              ivf_pq.pq_bits_ := pq_bits;
              ivf_pq.pq_dim_ := derived;
              ivf_pq.n_nonempty_lists_ := nnl |} in
  exists centers_exts rot,
    ivf_pq.index_ctor handle metric kind n_lists dim pq_bits pq_dim nnl =
    (_ <- ivf_pq.check_consistency s ;; Ok (empty_index s centers_exts rot)).
Proof.
  intros Hder Hnz Hkind Hshift Hroom s.
  assert (Hfirst : (if pq_dim =? 0
                    then of_option out_of_fuel (calculate_pq_dim dim)
                    else Ok pq_dim) = Ok derived).
  { destruct (pq_dim =? 0); [rewrite Hder|subst derived]; reflexivity. }
  assert (Hbook : ivf_pq.pq_book_size s = Some (Uint32.shl 1 pq_bits)).
  { unfold ivf_pq.pq_book_size. simpl.
    apply Z.ltb_lt in Hshift. rewrite Hshift. reflexivity. }
  assert (Hlen : ivf_pq.pq_len s = Some ((dim + derived - 1) / derived)).
  { unfold ivf_pq.pq_len, div_rounding_up_unsafe. simpl.
    apply Z.eqb_neq in Hnz. rewrite Hnz. reflexivity. }
  assert (Hexts : exists c, ivf_pq.make_pq_centers_extents s = Ok c).
  { unfold ivf_pq.make_pq_centers_extents. rewrite Hbook, Hlen.
    destruct Hkind as [-> | ->]; simpl; eexists; reflexivity. }
  destruct Hexts as [c Hexts].
  exists c, (Uint32.mul ((dim + derived - 1) / derived) derived).
  unfold ivf_pq.index_ctor. rewrite Hfirst. simpl bind at 1.
  fold s. rewrite Hexts. simpl bind at 1.
  unfold make_device_mdarray, ivf_pq.rot_dim. rewrite Hlen.
  repeat (rewrite ?Hroom; cbn [bind of_option option_map]).
  reflexivity.
Qed.

Lemma derived_pq_dim_nonzero dim pq_dim derived :
  Uint32.in_range dim ->
  (if pq_dim =? 0 then calculate_pq_dim dim = Some derived
   else derived = pq_dim) ->
  derived <> 0.
Proof.
  intros Hd Hder. destruct (pq_dim =? 0) eqn:Hz.
  - destruct (calculate_pq_dim_positive dim Hd) as [r [Hrun [Hpos _]]].
    rewrite Hrun in Hder. inversion Hder. lia.
  - apply Z.eqb_neq in Hz. congruence.
Qed.

(** With an enumerator as codebook mode and a defined shift, the
    constructor first makes its seven requests and fails with the allocation
    failure if one of them is refused; only otherwise does it reach
    [check_consistency], which decides the result. *)
Lemma index_ctor_steps handle metric kind n_lists dim pq_bits pq_dim nnl
      derived :
  (if pq_dim =? 0 then calculate_pq_dim dim = Some derived
   else derived = pq_dim) ->
  derived <> 0 ->
  kind = ivf_pq.PER_SUBSPACE \/ kind = ivf_pq.PER_CLUSTER ->
  pq_bits < 32 ->
  let s := {| ivf_pq.metric_ := metric;
              ivf_pq.codebook_kind_ := kind;
              ivf_pq.n_lists_ := n_lists;
              ivf_pq.dim_ := dim;
              ivf_pq.pq_bits_ := pq_bits;
              ivf_pq.pq_dim_ := derived;
              ivf_pq.n_nonempty_lists_ := nnl |} in
  exists centers_exts rot,
    ivf_pq.make_pq_centers_extents s = Ok centers_exts /\
    ivf_pq.rot_dim s = Some rot /\
    ivf_pq.index_ctor handle metric kind n_lists dim pq_bits pq_dim nnl =
    if grants handle (ctor_requests s centers_exts rot)
    then (_ <- ivf_pq.check_consistency s ;;
          Ok (empty_index s centers_exts rot))
    else Err bad_alloc.
Proof.
  intros Hder Hnz Hkind Hshift s.
  assert (Hfirst : (if pq_dim =? 0
                    then of_option out_of_fuel (calculate_pq_dim dim)
                    else Ok pq_dim) = Ok derived).
  { destruct (pq_dim =? 0); [rewrite Hder|subst derived]; reflexivity. }
  assert (Hbook : ivf_pq.pq_book_size s = Some (Uint32.shl 1 pq_bits)).
  { unfold ivf_pq.pq_book_size. simpl.
    apply Z.ltb_lt in Hshift. rewrite Hshift. reflexivity. }
  assert (Hlen : ivf_pq.pq_len s = Some ((dim + derived - 1) / derived)).
  { unfold ivf_pq.pq_len, div_rounding_up_unsafe. simpl.
    apply Z.eqb_neq in Hnz. rewrite Hnz. reflexivity. }
  assert (Hexts : exists c, ivf_pq.make_pq_centers_extents s = Ok c).
  { unfold ivf_pq.make_pq_centers_extents. rewrite Hbook, Hlen.
    destruct Hkind as [-> | ->]; simpl; eexists; reflexivity. }
  destruct Hexts as [c Hexts].
  exists c, (Uint32.mul ((dim + derived - 1) / derived) derived).
  split; [exact Hexts|]. split.
  { unfold ivf_pq.rot_dim. rewrite Hlen. reflexivity. }
  unfold ivf_pq.index_ctor. rewrite Hfirst. simpl bind at 1.
  fold s. rewrite Hexts. simpl bind at 1.
  unfold make_device_mdarray, ivf_pq.rot_dim. rewrite Hlen.
  unfold grants, ctor_requests. subst s.
  cbn [forallb fst snd of_option option_map
       ivf_pq.pq_dim ivf_pq.pq_bits ivf_pq.dim ivf_pq.n_lists
       ivf_pq.pq_dim_ ivf_pq.pq_bits_ ivf_pq.dim_ ivf_pq.n_lists_].
  repeat match goal with
         | |- context [can_allocate handle ?t ?e] =>
             destruct (can_allocate handle t e);
             cbn [bind of_option option_map andb]; [|reflexivity]
         end.
  reflexivity.
Qed.

(** C6 (as amended).  A constructed index has [pq_centers] of shape
    [[pq_dim, pq_book_size, pq_len]] under [PER_SUBSPACE] and
    [[n_lists, pq_book_size, pq_len]] under [PER_CLUSTER]; two constructions
    that differ in the mode only agree on every quantity in these shapes.
    With any other mode value the constructor fails in the [default] branch
    of the switch, whatever the allocator would do and whatever the other
    arguments; the failure is thrown to the caller, who can handle it like a
    validation failure.  With either enumerator that branch is never
    taken. *)
Theorem pq_centers_shape handle metric n_lists dim pq_bits pq_dim nnl :
  Uint32.in_range dim ->
  (forall self,
      ivf_pq.index_ctor handle metric ivf_pq.PER_SUBSPACE
        n_lists dim pq_bits pq_dim nnl = Ok self ->
      exists book len,
        ivf_pq.pq_book_size self = Some book /\
        ivf_pq.pq_len self = Some len /\
        extents (ivf_pq.pq_centers_ self) = [ivf_pq.pq_dim self; book; len]) /\
  (forall self,
      ivf_pq.index_ctor handle metric ivf_pq.PER_CLUSTER
        n_lists dim pq_bits pq_dim nnl = Ok self ->
      exists book len,
        ivf_pq.pq_book_size self = Some book /\
        ivf_pq.pq_len self = Some len /\
        extents (ivf_pq.pq_centers_ self) = [ivf_pq.n_lists self; book; len]) /\
  (forall self_s self_c,
      ivf_pq.index_ctor handle metric ivf_pq.PER_SUBSPACE
        n_lists dim pq_bits pq_dim nnl = Ok self_s ->
      ivf_pq.index_ctor handle metric ivf_pq.PER_CLUSTER
        n_lists dim pq_bits pq_dim nnl = Ok self_c ->
      ivf_pq.pq_dim self_s = ivf_pq.pq_dim self_c /\
      ivf_pq.n_lists self_s = ivf_pq.n_lists self_c /\
      ivf_pq.pq_book_size self_s = ivf_pq.pq_book_size self_c /\
      ivf_pq.pq_len self_s = ivf_pq.pq_len self_c) /\
  (forall kind,
      kind <> ivf_pq.PER_SUBSPACE -> kind <> ivf_pq.PER_CLUSTER ->
      ivf_pq.index_ctor handle metric kind n_lists dim pq_bits pq_dim nnl
        = Err fail_unreachable /\
      forall handler,
        try_catch
          (ivf_pq.index_ctor handle metric kind n_lists dim pq_bits pq_dim nnl)
          handler
        = handler fail_unreachable) /\
  (forall kind,
      kind = ivf_pq.PER_SUBSPACE \/ kind = ivf_pq.PER_CLUSTER ->
      ivf_pq.index_ctor handle metric kind n_lists dim pq_bits pq_dim nnl
        <> Err fail_unreachable).
Proof.
  intros Hd.
  assert (Hshape : forall kind self,
    ivf_pq.index_ctor handle metric kind n_lists dim pq_bits pq_dim nnl
      = Ok self ->
    exists derived book len,
      (if pq_dim =? 0 then calculate_pq_dim dim = Some derived
       else derived = pq_dim) /\
      ivf_pq.pq_dim self = derived /\ ivf_pq.n_lists self = n_lists /\
      ivf_pq.pq_book_size self =
        (if pq_bits <? 32 then Some (Uint32.shl 1 pq_bits) else None) /\
      ivf_pq.pq_book_size self = Some book /\
      ivf_pq.pq_len self = div_rounding_up_unsafe dim derived /\
      ivf_pq.pq_len self = Some len /\
      ((kind = ivf_pq.PER_SUBSPACE /\
        extents (ivf_pq.pq_centers_ self) = [derived; book; len]) \/
       (kind = ivf_pq.PER_CLUSTER /\
        extents (ivf_pq.pq_centers_ self) = [n_lists; book; len]))).
  { intros kind self Hctor.
    destruct (index_ctor_Ok _ _ _ _ _ _ _ _ _ Hctor)
      as [derived [c [r [Hder [Hc [_ [_ ->]]]]]]].
    destruct (make_pq_centers_extents_Ok _ _ Hc)
      as [book [len [Hbook [Hlen Hcase]]]].
    exists derived, book, len. simpl in *.
    repeat (split; [first [assumption | reflexivity]|]).
    destruct Hcase as [[-> ->]|[-> ->]]; [left|right]; split; reflexivity. }
  split; [|split; [|split; [|split]]].
  - intros self Hctor.
    destruct (Hshape _ _ Hctor)
      as [derived [book [len [_ [Hp [_ [_ [Hb [_ [Hl Hcase]]]]]]]]]].
    exists book, len. rewrite Hp.
    destruct Hcase as [[_ He]|[Hk _]]; [auto|discriminate Hk].
  - intros self Hctor.
    destruct (Hshape _ _ Hctor)
      as [derived [book [len [_ [_ [Hn [_ [Hb [_ [Hl Hcase]]]]]]]]]].
    exists book, len. rewrite Hn.
    destruct Hcase as [[Hk _]|[_ He]]; [discriminate Hk|auto].
  - intros self_s self_c Hs Hc.
    destruct (Hshape _ _ Hs)
      as [d1 [b1 [l1 [Hd1 [Hp1 [Hn1 [Hb1 [_ [Hl1 _]]]]]]]]].
    destruct (Hshape _ _ Hc)
      as [d2 [b2 [l2 [Hd2 [Hp2 [Hn2 [Hb2 [_ [Hl2 _]]]]]]]]].
    assert (Heq : d1 = d2).
    { destruct (pq_dim =? 0); [rewrite Hd1 in Hd2; inversion Hd2|]; congruence. }
    rewrite Hp1, Hp2, Hn1, Hn2, Hb1, Hb2, Hl1, Hl2, Heq. auto.
  - intros kind Hs Hc.
    assert (Hfail : ivf_pq.index_ctor handle metric kind n_lists dim pq_bits
                      pq_dim nnl = Err fail_unreachable).
    { destruct (calculate_pq_dim_positive dim Hd) as [r [Hrun _]].
      unfold ivf_pq.index_ctor.
      destruct (pq_dim =? 0); [rewrite Hrun|]; simpl bind at 1;
        rewrite make_pq_centers_extents_unreachable by assumption;
        reflexivity. }
    split; [exact Hfail|]. intros handler. rewrite Hfail. reflexivity.
  - intros kind Hkind Hctor.
    destruct (index_ctor_Err _ _ _ _ _ _ _ _ _ Hd Hctor)
      as [derived [_ [He|[He|[[He _]|He]]]]]; try discriminate He.
    + apply make_pq_centers_extents_Err in He.
      destruct He as [[_ [Hs Hc]]|[He _]]; [|discriminate He].
      simpl in Hs, Hc. destruct Hkind; contradiction.
    + apply check_consistency_Err in He.
      destruct He as [[He _]|[He _]]; discriminate He.
Qed.

Lemma pq_centers_shape_witness :
  Uint32.in_range 8 /\
  (exists book len,
      ivf_pq.pq_book_size small_index = Some book /\
      ivf_pq.pq_len small_index = Some len /\
      extents (ivf_pq.pq_centers_ small_index)
        = [ivf_pq.pq_dim small_index; book; len]) /\
  ivf_pq.index_ctor unlimited_handle 0 7 1 8 8 4 0 = Err fail_unreachable /\
  forall handler,
    try_catch (ivf_pq.index_ctor unlimited_handle 0 7 1 8 8 4 0) handler
    = handler fail_unreachable.
Proof.
  assert (Hd : Uint32.in_range 8) by (apply in_range_small; lia).
  pose proof (pq_centers_shape unlimited_handle 0 1 8 8 4 0 Hd)
    as [Hsub [_ [_ [Hother _]]]].
  split; [exact Hd|]. split.
  - apply Hsub. apply small_index_ctor. reflexivity.
  - apply (Hother 7); discriminate.
Defined.

(** C6 (as stated) fails in its last clause: the failure of the [default]
    branch is not fatal.  A caller that constructs with the mode value 7
    inside a [try] block and, in the handler, constructs with
    [PER_SUBSPACE] instead, ends up with the example index. *)
Lemma unrecognised_mode_recovered :
  ivf_pq.index_ctor unlimited_handle 0 7 1 8 8 4 0 = Err fail_unreachable /\
  try_catch
    (ivf_pq.index_ctor unlimited_handle 0 7 1 8 8 4 0)
    (fun _ => ivf_pq.index_ctor unlimited_handle 0 ivf_pq.PER_SUBSPACE
                1 8 8 4 0)
  = Ok small_index.
Proof. split; reflexivity. Qed.

(** C2 (as amended).  The constructor first replaces a zero [pq_dim] by
    [calculate_pq_dim(dim)].  With a codebook mode other than the two
    enumerators it then fails in the mode switch, whatever the other
    arguments.  Otherwise, for [pq_bits < 32], it makes its seven allocation
    requests, and if one of them is refused the allocation failure is what
    the caller gets, whether or not the checks would pass.  Only when all
    seven are satisfied does it validate [4 <= pq_bits <= 8] and
    [(pq_bits * pq_dim) % 8 == 0] on the derived [pq_dim]: it returns the
    index if both hold, raises the failure carrying [pq_bits] if the first
    fails, and otherwise the failure carrying [pq_bits], [pq_dim] and their
    product.  Whatever the allocator does, a construction that returns has
    passed both checks, and each of the two failures is raised only when its
    check fails, with these values. *)
Theorem index_ctor_validation handle metric kind n_lists dim pq_bits pq_dim nnl
        derived :
  Uint32.in_range dim ->
  (if pq_dim =? 0 then calculate_pq_dim dim = Some derived
   else derived = pq_dim) ->
  let s := {| ivf_pq.metric_ := metric;
              ivf_pq.codebook_kind_ := kind;
              ivf_pq.n_lists_ := n_lists;
              ivf_pq.dim_ := dim;
              ivf_pq.pq_bits_ := pq_bits;
              ivf_pq.pq_dim_ := derived;
              ivf_pq.n_nonempty_lists_ := nnl |} in
  let outcome :=
    ivf_pq.index_ctor handle metric kind n_lists dim pq_bits pq_dim nnl in
  let product := Uint32.mul pq_bits derived in
  (forall self,
      outcome = Ok self ->
      ivf_pq.pq_dim self = derived /\ ivf_pq.pq_bits self = pq_bits /\
      4 <= pq_bits <= 8 /\ product mod 8 = 0) /\
  (forall v,
      outcome = Err (expects_pq_bits v) ->
      v = pq_bits /\ ~ 4 <= pq_bits <= 8) /\
  (forall a b c,
      outcome = Err (expects_pq_dim a b c) ->
      a = pq_bits /\ b = derived /\ c = product /\
      4 <= pq_bits <= 8 /\ product mod 8 <> 0) /\
  (kind <> ivf_pq.PER_SUBSPACE -> kind <> ivf_pq.PER_CLUSTER ->
   outcome = Err fail_unreachable) /\
  (kind = ivf_pq.PER_SUBSPACE \/ kind = ivf_pq.PER_CLUSTER ->
   pq_bits < 32 ->
   exists centers_exts rot,
     ivf_pq.make_pq_centers_extents s = Ok centers_exts /\
     ivf_pq.rot_dim s = Some rot /\
     (grants handle (ctor_requests s centers_exts rot) = false ->
      outcome = Err bad_alloc) /\
     (grants handle (ctor_requests s centers_exts rot) = true ->
      (4 <= pq_bits <= 8 /\ product mod 8 = 0 ->
       outcome = Ok (empty_index s centers_exts rot)) /\
      (~ 4 <= pq_bits <= 8 -> outcome = Err (expects_pq_bits pq_bits)) /\
      (4 <= pq_bits <= 8 -> product mod 8 <> 0 ->
       outcome = Err (expects_pq_dim pq_bits derived product)))).
Proof.
  intros Hd Hder s outcome product.
  assert (Hsame : forall derived',
             (if pq_dim =? 0 then calculate_pq_dim dim = Some derived'
              else derived' = pq_dim) -> derived' = derived).
  { intros d' Hd'. destruct (pq_dim =? 0); [rewrite Hder in Hd'|]; congruence. }
  pose proof (derived_pq_dim_nonzero dim pq_dim derived Hd Hder) as Hnz.
  assert (Hraised : forall e,
             outcome = Err e -> is_structural e = true ->
             (e = expects_pq_bits pq_bits /\ ~ 4 <= pq_bits <= 8) \/
             (e = expects_pq_dim pq_bits derived product /\
              4 <= pq_bits <= 8 /\ product mod 8 <> 0)).
  { intros e Hctor Hstruct.
    destruct (index_ctor_Err _ _ _ _ _ _ _ _ _ Hd Hctor)
      as [d' [Hd' He]].
    apply Hsame in Hd'. subst d'. cbv zeta in He.
    destruct He as [He|[He|[[He _]|He]]]; try (subst e; discriminate Hstruct).
    - apply make_pq_centers_extents_Err in He.
      destruct He as [[-> _]|[-> _]]; discriminate Hstruct.
    - apply check_consistency_Err in He. exact He. }
  split; [|split; [|split; [|split]]].
  - intros self Hctor.
    destruct (index_ctor_Ok _ _ _ _ _ _ _ _ _ Hctor)
      as [d' [c [r [Hd' [_ [_ [Hchk ->]]]]]]].
    apply Hsame in Hd'. subst d'.
    apply check_consistency_Ok in Hchk. simpl in *. auto.
  - intros v Hctor.
    destruct (Hraised _ Hctor eq_refl) as [[He Hbits]|[He _]];
      [inversion He; auto|discriminate He].
  - intros a b c Hctor.
    destruct (Hraised _ Hctor eq_refl) as [[He _]|[He [Hbits Hprod]]];
      [discriminate He|inversion He; auto].
  - intros Hs Hc.
    destruct (calculate_pq_dim_positive dim Hd) as [r [Hrun _]].
    unfold outcome, ivf_pq.index_ctor.
    destruct (pq_dim =? 0); [rewrite Hrun|]; simpl bind at 1;
      rewrite make_pq_centers_extents_unreachable by assumption; reflexivity.
  - intros Hkind Hshift.
    destruct (index_ctor_steps handle metric kind n_lists dim pq_bits
                pq_dim nnl derived Hder Hnz Hkind Hshift)
      as [c [r [Hc [Hr Hrun]]]].
    fold s in Hc, Hr, Hrun. fold outcome in Hrun.
    exists c, r. split; [exact Hc|]. split; [exact Hr|]. split.
    + intros Hrefused. rewrite Hrun, Hrefused. reflexivity.
    + intros Hgranted. rewrite Hgranted in Hrun.
      destruct (ivf_pq.check_consistency s) as [[]|e] eqn:Hchk;
        simpl bind in Hrun.
      * apply check_consistency_Ok in Hchk. simpl in Hchk.
        fold product in Hchk.
        split; [intros _; exact Hrun|]. split; intros; lia.
      * apply check_consistency_Err in Hchk. simpl in Hchk.
        fold product in Hchk.
        destruct Hchk as [[-> Hbits]|[-> [Hbits Hprod]]].
        -- split; [intros [Hb _]; contradiction|].
           split; [intros _; exact Hrun|intros Hb; contradiction].
        -- split; [intros [_ Hp]; contradiction|].
           split; [intros Hb; contradiction|intros _ _; exact Hrun].
Qed.

Lemma index_ctor_validation_witness :
  let s := {| ivf_pq.metric_ := 0;
              ivf_pq.codebook_kind_ := ivf_pq.PER_SUBSPACE;
              ivf_pq.n_lists_ := 1024;
              ivf_pq.dim_ := 128;
              ivf_pq.pq_bits_ := 5;
              ivf_pq.pq_dim_ := 3;
              ivf_pq.n_nonempty_lists_ := 0 |} in
  let outcome handle :=
    ivf_pq.index_ctor handle 0 ivf_pq.PER_SUBSPACE 1024 128 5 3 0 in
  Uint32.in_range 128 /\
  (if 3 =? 0 then calculate_pq_dim 128 = Some 3 else 3 = 3) /\
  (ivf_pq.PER_SUBSPACE = ivf_pq.PER_SUBSPACE \/
   ivf_pq.PER_SUBSPACE = ivf_pq.PER_CLUSTER) /\
  5 < 32 /\
  4 <= 5 <= 8 /\
  Uint32.mul 5 3 mod 8 <> 0 /\
  (exists centers_exts rot,
      grants unlimited_handle (ctor_requests s centers_exts rot) = true /\
      outcome unlimited_handle = Err (expects_pq_dim 5 3 15)) /\
  (exists centers_exts rot,
      grants (capacity_handle 1024) (ctor_requests s centers_exts rot) = false /\
      outcome (capacity_handle 1024) = Err bad_alloc).
Proof.
  intros s outcome.
  assert (Hd : Uint32.in_range 128) by (apply in_range_small; lia).
  assert (Hder : if 3 =? 0 then calculate_pq_dim 128 = Some 3 else 3 = 3)
    by reflexivity.
  assert (Hkind : ivf_pq.PER_SUBSPACE = ivf_pq.PER_SUBSPACE \/
                  ivf_pq.PER_SUBSPACE = ivf_pq.PER_CLUSTER) by (left; reflexivity).
  assert (Hshift : 5 < 32) by lia.
  assert (Hbits : 4 <= 5 <= 8) by lia.
  assert (Hprod : Uint32.mul 5 3 mod 8 <> 0) by (vm_compute; discriminate).
  repeat (split; [assumption|]).
  split.
  - destruct (proj2 (proj2 (proj2 (proj2
        (index_ctor_validation unlimited_handle 0 ivf_pq.PER_SUBSPACE
           1024 128 5 3 0 3 Hd Hder)))) Hkind Hshift)
      as [c [r [Hc [Hr [_ Hgranted]]]]].
    exists c, r.
    assert (Hg : grants unlimited_handle (ctor_requests s c r) = true)
      by reflexivity.
    split; [exact Hg|].
    exact (proj2 (proj2 (Hgranted Hg)) Hbits Hprod).
  - destruct (proj2 (proj2 (proj2 (proj2
        (index_ctor_validation (capacity_handle 1024) 0 ivf_pq.PER_SUBSPACE
           1024 128 5 3 0 3 Hd Hder)))) Hkind Hshift)
      as [c [r [Hc [Hr [Hrefused _]]]]].
    exists c, r.
    assert (Hg : grants (capacity_handle 1024) (ctor_requests s c r) = false).
    { vm_compute in Hc. inversion Hc. subst c.
      vm_compute in Hr. inversion Hr. subst r.
      vm_compute. reflexivity. }
    split; [exact Hg|exact (Hrefused Hg)].
Defined.

(** With room on the device, constructing with [pq_bits = 8] and
    [pq_dim = 64] returns, whatever the other arguments. *)
Example index_ctor_8_64_constructs handle metric kind n_lists dim nnl :
  (forall t exts, can_allocate handle t exts = true) ->
  kind = ivf_pq.PER_SUBSPACE \/ kind = ivf_pq.PER_CLUSTER ->
  exists self,
    ivf_pq.index_ctor handle metric kind n_lists dim 8 64 nnl = Ok self /\
    ivf_pq.pq_bits self = 8 /\ ivf_pq.pq_dim self = 64.
Proof.
  intros Hroom Hkind.
  destruct (index_ctor_reaches_check handle metric kind n_lists dim 8 64 nnl 64)
    as [c [r Hrun]]; try reflexivity; try assumption; try lia.
  eexists. split; [exact Hrun|]. split; reflexivity.
Qed.

(** C2 (as stated) fails: the validation comes after the allocations.  On
    a device that satisfies requests of up to [2^34] bytes, constructing with
    [pq_bits = 30] (and [dim = 128], [pq_dim] derived to 64) ends in an
    allocation failure for the [64 * 2^30 * 2] floats of [pq_centers], not in
    a validation failure, although [pq_bits] is outside [[4, 8]]. *)
Lemma index_ctor_allocates_before_validating :
  ~ 4 <= 30 <= 8 /\
  calculate_pq_dim 128 = Some 64 /\
  ivf_pq.index_ctor (capacity_handle (2 ^ 34)) 0 ivf_pq.PER_SUBSPACE
    1024 128 30 0 0 = Err bad_alloc /\
  is_structural bad_alloc = false.
Proof.
  split; [lia|]. split; [reflexivity|]. split; reflexivity.
Qed.

(** ** Derived dimensions *)

Lemma round_up_safe_multiple d m :
  0 < m -> least_multiple_ge m d (round_up_safe d m).
Proof.
  intros Hm. unfold least_multiple_ge, round_up_safe.
  pose proof (Z.mod_pos_bound d m Hm) as Hb.
  pose proof (Z.div_mod d m ltac:(lia)) as Hdm.
  destruct (d mod m =? 0) eqn:Hz.
  - apply Z.eqb_eq in Hz. split; [exists (d / m)|]; lia.
  - apply Z.eqb_neq in Hz. split; [exists (d / m + 1)|]; lia.
Qed.

Lemma div_rounding_up_unsafe_ceil a b :
  0 < b ->
  exists q, div_rounding_up_unsafe a b = Some q /\ is_ceil_div a b q.
Proof.
  intros Hb. unfold div_rounding_up_unsafe, is_ceil_div.
  destruct (b =? 0) eqn:Hz; [apply Z.eqb_eq in Hz; lia|].
  exists ((a + b - 1) / b). split; [reflexivity|].
  pose proof (Z.mod_pos_bound (a + b - 1) b Hb) as Hm.
  pose proof (Z.div_mod (a + b - 1) b ltac:(lia)) as Hdm.
  nia.
Qed.






(** The scenario of C7 does occur: with room on the device the constructor
    returns, under either codebook mode. *)
Example scenario_128_constructs :
  exists self,
    ivf_pq.index_ctor unlimited_handle 0 ivf_pq.PER_SUBSPACE 8 128 8 0 0
      = Ok self /\
    ivf_pq.pq_dim self = 64 /\
    ivf_pq.pq_book_size self = Some 256 /\
    ivf_pq.dim_ext self = 136 /\
    ivf_pq.pq_len self = Some 2 /\
    ivf_pq.rot_dim self = Some 128.
Proof. eexists. repeat split; reflexivity. Qed.

(** C8.  The code breaks [rot_dim >= dim] where rounding [dim] up to a
    multiple of [pq_dim] leaves [uint32_t].  On a device that satisfies
    requests of up to [2^34] bytes, the constructor returns for
    [dim = 2^31 + 1], [pq_dim = 2^31], [pq_bits = 8]; [rot_dim()] is then
    [2^32 mod 2^32 = 0], which is less than [dim]. *)
Lemma rot_dim_wraps :
  Uint32.in_range (2 ^ 31 + 1) /\ Uint32.in_range (2 ^ 31) /\
  ivf_pq.index_ctor (capacity_handle (2 ^ 34)) 0 ivf_pq.PER_CLUSTER
    1 (2 ^ 31 + 1) 8 (2 ^ 31) 0 = Ok wide_index /\
  ivf_pq.rot_dim wide_index = Some 0 /\
  ~ ivf_pq.dim wide_index <= 0.
Proof.
  split; [vm_compute; split; [discriminate|reflexivity]|].
  split; [vm_compute; split; [discriminate|reflexivity]|].
  split; [vm_compute; reflexivity|].
  split; [reflexivity|].
  vm_compute. auto.
Qed.

(** ** Aligned matrix views *)

Lemma alignTo_fixed_iff ptr :
  (ptr =? aligned_view.alignTo ptr aligned_view.alignment_value) = true <->
  ptr mod 128 = 0.
Proof.
  unfold aligned_view.alignTo, aligned_view.alignment_value, round_up_safe.
  pose proof (Z.mod_pos_bound ptr 128 ltac:(lia)) as Hb.
  destruct (ptr mod 128 =? 0) eqn:Hz.
  - apply Z.eqb_eq in Hz. rewrite Z.eqb_refl. tauto.
  - apply Z.eqb_neq in Hz. split; [|contradiction].
    intros Heq. apply Z.eqb_eq in Heq. lia.
Qed.

(** C9 (as amended).  When assertions are compiled in ([NDEBUG] not
    defined), constructing an aligned matrix view from an address that is not
    a multiple of 128 fails the assertion, at construction.  From an address
    that is a multiple of 128 the construction returns a view of that address
    with extents [[n_rows, n_cols]], and so it does from any address when
    [NDEBUG] is defined.  In every case the device memory is the same after
    the call as before, and the outcome does not depend on what it holds. *)
Theorem aligned_view_construction NDEBUG mem ptr n_rows n_cols :
  let view := {| aligned_view.data_handle := ptr;
                 aligned_view.view_extents := [n_rows; n_cols] |} in
  let call m :=
    aligned_view.make_device_aligned_matrix_view NDEBUG m ptr n_rows n_cols in
  (NDEBUG = false -> ptr mod 128 <> 0 ->
   call mem = (mem, aligned_view.assertion_failed)) /\
  (ptr mod 128 = 0 -> call mem = (mem, aligned_view.returned view)) /\
  (NDEBUG = true -> call mem = (mem, aligned_view.returned view)) /\
  fst (call mem) = mem /\
  (forall mem', snd (call mem') = snd (call mem)).
Proof.
  intros view call. subst call view.
  unfold aligned_view.make_device_aligned_matrix_view.
  pose proof (alignTo_fixed_iff ptr) as Hfix.
  destruct (ptr =? aligned_view.alignTo ptr aligned_view.alignment_value) eqn:Heq;
    destruct NDEBUG; simpl; repeat split; intros;
    try reflexivity; try discriminate.
  - exfalso. apply H0. apply Hfix. reflexivity.
  - assert (false = true) by (apply Hfix; assumption). discriminate.
Qed.

Lemma aligned_view_construction_witness :
  let mem : aligned_view.memory := fun _ => None in
  let view := {| aligned_view.data_handle := 256;
                 aligned_view.view_extents := [3; 5] |} in
  256 mod 128 = 0 /\
  aligned_view.make_device_aligned_matrix_view false mem 256 3 5
    = (mem, aligned_view.returned view) /\
  129 mod 128 <> 0 /\
  aligned_view.make_device_aligned_matrix_view false mem 129 3 5
    = (mem, aligned_view.assertion_failed).
Proof.
  intros mem view.
  assert (Hal : 256 mod 128 = 0) by reflexivity.
  assert (Hmis : 129 mod 128 <> 0) by (vm_compute; discriminate).
  split; [exact Hal|]. split.
  - exact (proj1 (proj2 (aligned_view_construction false mem 256 3 5)) Hal).
  - split; [exact Hmis|].
    exact (proj1 (aligned_view_construction false mem 129 3 5) eq_refl Hmis).
Defined.

(** C9 (as stated) fails when [NDEBUG] is defined: the assertion is not
    compiled, and the address 129, which is not a multiple of 128, is wrapped
    in a view without any failure being reported. *)
Lemma misaligned_view_without_assertions :
  let mem : aligned_view.memory := fun _ => None in
  129 mod 128 <> 0 /\
  aligned_view.make_device_aligned_matrix_view true mem 129 3 5 =
    (mem, aligned_view.returned
            {| aligned_view.data_handle := 129;
               aligned_view.view_extents := [3; 5] |}).
Proof.
  intros mem. split; [vm_compute; discriminate|reflexivity].
Qed.

(* ================================================================== *)
(** * Further properties of the index *)

(** ** What [check_consistency] accepts *)

Lemma wrap_mod_8 x : Uint32.wrap x mod 8 = x mod 8.
Proof.
  unfold Uint32.wrap, Uint32.modulus.
  apply Z.mod_mod_divide. exists (2 ^ 29). reflexivity.
Qed.

(** X1.  The wrap-around of the [uint32_t] product never changes the verdict
    of [check_consistency]: it returns exactly when [pq_bits] is in [[4, 8]]
    and the product [pq_bits * pq_dim], taken in the integers, is a multiple
    of 8. *)
Theorem check_consistency_exact (s : ivf_pq.index_scalars) :
  ivf_pq.check_consistency s = Ok tt <->
  4 <= ivf_pq.pq_bits s <= 8 /\
  (ivf_pq.pq_bits s * ivf_pq.pq_dim s) mod 8 = 0.
Proof.
  rewrite check_consistency_Ok. unfold Uint32.mul.
  rewrite wrap_mod_8. tauto.
Qed.

(** X2.  For [pq_bits] in [[4, 8]]: with [pq_bits = 8] every [pq_dim] is
    accepted, and a [pq_dim] that is a multiple of 8 is accepted with every
    [pq_bits]; with [pq_bits] 5 or 7 only multiples of 8 are accepted, with
    [pq_bits = 6] exactly the multiples of 4, with [pq_bits = 4] exactly the
    even values. *)
Theorem check_consistency_by_bits (s : ivf_pq.index_scalars) :
  4 <= ivf_pq.pq_bits s <= 8 ->
  (ivf_pq.pq_bits s = 8 -> ivf_pq.check_consistency s = Ok tt) /\
  (ivf_pq.pq_dim s mod 8 = 0 -> ivf_pq.check_consistency s = Ok tt) /\
  (ivf_pq.pq_bits s = 5 \/ ivf_pq.pq_bits s = 7 ->
   (ivf_pq.check_consistency s = Ok tt <-> ivf_pq.pq_dim s mod 8 = 0)) /\
  (ivf_pq.pq_bits s = 6 ->
   (ivf_pq.check_consistency s = Ok tt <-> ivf_pq.pq_dim s mod 4 = 0)) /\
  (ivf_pq.pq_bits s = 4 ->
   (ivf_pq.check_consistency s = Ok tt <-> ivf_pq.pq_dim s mod 2 = 0)).
Proof.
  intros Hbits.
  assert (Hiff : ivf_pq.check_consistency s = Ok tt <->
                 (ivf_pq.pq_bits s * ivf_pq.pq_dim s) mod 8 = 0).
  { rewrite check_consistency_Ok. unfold Uint32.mul. rewrite wrap_mod_8. tauto. }
  rewrite Hiff.
  assert (Hcases : ivf_pq.pq_bits s = 4 \/ ivf_pq.pq_bits s = 5 \/
                   ivf_pq.pq_bits s = 6 \/ ivf_pq.pq_bits s = 7 \/
                   ivf_pq.pq_bits s = 8) by lia.
  destruct Hcases as [H|[H|[H|[H|H]]]]; rewrite H;
    repeat match goal with |- _ /\ _ => split end;
    intros; try split; intros;
    try match goal with E : _ \/ _ |- _ => destruct E end;
    try discriminate; try lia; Z.div_mod_to_equations; lia.
Qed.

Lemma check_consistency_by_bits_witness :
  let s := {| ivf_pq.metric_ := 0;
              ivf_pq.codebook_kind_ := ivf_pq.PER_SUBSPACE;
              ivf_pq.n_lists_ := 1024;
              ivf_pq.dim_ := 100;
              ivf_pq.pq_bits_ := 5;
              ivf_pq.pq_dim_ := 96;
              ivf_pq.n_nonempty_lists_ := 0 |} in
  4 <= ivf_pq.pq_bits s <= 8 /\
  ivf_pq.pq_dim s mod 8 = 0 /\
  ivf_pq.check_consistency s = Ok tt.
Proof.
  intros s.
  assert (Hbits : 4 <= ivf_pq.pq_bits s <= 8) by (simpl; lia).
  assert (Hdim : ivf_pq.pq_dim s mod 8 = 0) by reflexivity.
  split; [exact Hbits|]. split; [exact Hdim|].
  exact (proj1 (proj2 (check_consistency_by_bits s Hbits)) Hdim).
Defined.

(** ** The derived [pq_dim] and the validation *)

Lemma calculate_pq_dim_multiple_of_8 dim r :
  Uint32.in_range dim -> 8 <= dim ->
  calculate_pq_dim dim = Some r -> r mod 8 = 0.
Proof.
  intros Hd H8 Hrun.
  destruct (calculate_pq_dim_cases dim Hd) as [d [Hhalf [Hkeep Hcase]]].
  destruct Hcase as [[H32 Hr]|[[Hsmall [j [Hj [Hr Hbr]]]]|[Hz _]]];
    [| |lia]; rewrite Hr in Hrun; inversion Hrun; subst r.
  - destruct (round_down_safe_multiple d 32) as [[q Hq] _]; [lia|].
    rewrite Hq. replace (32 * q) with (4 * q * 8) by lia. apply Z_mod_mult.
  - assert (Hd8 : 8 <= d).
    { destruct (Z_lt_le_dec dim 128); [rewrite Hkeep; lia|].
      rewrite Hhalf by lia. apply Z.div_le_lower_bound; lia. }
    assert (Hj3 : 3 <= j).
    { assert (3 < j + 1); [|lia].
      apply (Z.pow_lt_mono_r_iff 2); lia. }
    replace j with (j - 3 + 3) by lia.
    rewrite Z.pow_add_r by lia. change (2 ^ 3) with 8. apply Z_mod_mult.
Qed.

Lemma calculate_pq_dim_below_8 dim r :
  0 <= dim < 8 -> calculate_pq_dim dim = Some r -> r = 1 \/ r = 2 \/ r = 4.
Proof.
  intros Hd Hrun.
  assert (Hcases : dim = 0 \/ dim = 1 \/ dim = 2 \/ dim = 3 \/
                   dim = 4 \/ dim = 5 \/ dim = 6 \/ dim = 7) by lia.
  repeat (destruct Hcases as [->|Hcases];
          [vm_compute in Hrun; inversion Hrun; auto|]).
  subst dim. vm_compute in Hrun. inversion Hrun. auto.
Qed.

(** X3.  With [pq_dim = 0], [dim >= 8] and [pq_bits] in [[4, 8]] the derived
    [pq_dim] is a multiple of 8 and passes the validation: the constructor
    never raises a validation failure, and it returns when the codebook mode
    is an enumerator and every allocation succeeds. *)
Theorem auto_pq_dim_passes handle metric kind n_lists dim pq_bits nnl :
  Uint32.in_range dim -> 8 <= dim -> 4 <= pq_bits <= 8 ->
  (forall e,
      ivf_pq.index_ctor handle metric kind n_lists dim pq_bits 0 nnl = Err e ->
      is_structural e = false) /\
  (kind = ivf_pq.PER_SUBSPACE \/ kind = ivf_pq.PER_CLUSTER ->
   (forall t exts, can_allocate handle t exts = true) ->
   exists self,
     ivf_pq.index_ctor handle metric kind n_lists dim pq_bits 0 nnl = Ok self /\
     ivf_pq.pq_dim self mod 8 = 0).
Proof.
  intros Hd H8 Hbits.
  destruct (calculate_pq_dim_positive dim Hd) as [r [Hrun [Hpos _]]].
  pose proof (calculate_pq_dim_multiple_of_8 dim r Hd H8 Hrun) as Hr8.
  assert (Hpass : forall s,
             ivf_pq.pq_bits s = pq_bits -> ivf_pq.pq_dim s = r ->
             ivf_pq.check_consistency s = Ok tt).
  { intros s Hb Hp. apply check_consistency_Ok. rewrite Hb, Hp.
    split; [exact Hbits|]. unfold Uint32.mul. rewrite wrap_mod_8.
    apply Zmod_divides in Hr8; [|lia]. destruct Hr8 as [c ->].
    replace (pq_bits * (8 * c)) with (pq_bits * c * 8) by lia.
    apply Z_mod_mult. }
  split.
  - intros e Hctor.
    destruct (index_ctor_Err _ _ _ _ _ _ _ _ _ Hd Hctor) as [derived [Hder He]].
    change (0 =? 0) with true in Hder. cbv iota in Hder.
    rewrite Hrun in Hder. inversion Hder. subst derived. cbv zeta in He.
    destruct He as [He|[He|[[He _]|He]]]; try (subst e; reflexivity).
    + apply make_pq_centers_extents_Err in He.
      destruct He as [[-> _]|[-> _]]; reflexivity.
    + rewrite Hpass in He by reflexivity. discriminate He.
  - intros Hkind Hroom.
    destruct (index_ctor_reaches_check handle metric kind n_lists dim pq_bits
                0 nnl r Hrun) as [c [rot Hctor]]; try assumption; try lia.
    rewrite Hpass in Hctor by reflexivity. simpl bind in Hctor.
    eexists. split; [exact Hctor|exact Hr8].
Qed.

Lemma auto_pq_dim_passes_witness :
  Uint32.in_range 10 /\ 8 <= 10 /\ 4 <= 5 <= 8 /\
  (forall t exts, can_allocate unlimited_handle t exts = true) /\
  exists self,
    ivf_pq.index_ctor unlimited_handle 0 ivf_pq.PER_SUBSPACE 1024 10 5 0 0
      = Ok self /\
    ivf_pq.pq_dim self mod 8 = 0.
Proof.
  assert (Hd : Uint32.in_range 10) by (apply in_range_small; lia).
  assert (H8 : 8 <= 10) by lia.
  assert (Hbits : 4 <= 5 <= 8) by lia.
  assert (Hroom : forall t exts, can_allocate unlimited_handle t exts = true)
    by reflexivity.
  repeat (split; [assumption|]).
  exact (proj2 (auto_pq_dim_passes unlimited_handle 0 ivf_pq.PER_SUBSPACE
                  1024 10 5 0 Hd H8 Hbits)
           (or_introl eq_refl) Hroom).
Defined.

(** X4.  With [pq_dim = 0], [dim < 8] and [pq_bits] 5 or 7 the derived
    [pq_dim] is 1, 2 or 4 and fails the validation: the constructor never
    returns, and when the codebook mode is an enumerator and every allocation
    succeeds it raises the validation failure on the product. *)
Theorem auto_pq_dim_rejected handle metric kind n_lists dim pq_bits nnl :
  0 <= dim < 8 -> pq_bits = 5 \/ pq_bits = 7 ->
  (forall self,
      ivf_pq.index_ctor handle metric kind n_lists dim pq_bits 0 nnl
        <> Ok self) /\
  (kind = ivf_pq.PER_SUBSPACE \/ kind = ivf_pq.PER_CLUSTER ->
   (forall t exts, can_allocate handle t exts = true) ->
   exists r,
     calculate_pq_dim dim = Some r /\
     ivf_pq.index_ctor handle metric kind n_lists dim pq_bits 0 nnl
       = Err (expects_pq_dim pq_bits r (pq_bits * r))).
Proof.
  intros Hdim Hbits.
  assert (Hd : Uint32.in_range dim) by (apply in_range_small; lia).
  destruct (calculate_pq_dim_positive dim Hd) as [r [Hrun _]].
  pose proof (calculate_pq_dim_below_8 dim r Hdim Hrun) as Hr.
  split.
  - intros self Hctor.
    destruct (index_ctor_Ok _ _ _ _ _ _ _ _ _ Hctor)
      as [derived [c [rot [Hder [_ [_ [Hchk _]]]]]]].
    change (0 =? 0) with true in Hder. cbv iota in Hder.
    rewrite Hrun in Hder. inversion Hder. subst derived.
    apply check_consistency_Ok in Hchk. simpl in Hchk.
    destruct Hchk as [_ Hmod].
    destruct Hbits as [-> | ->]; destruct Hr as [->|[->| ->]];
      vm_compute in Hmod; discriminate Hmod.
  - intros Hkind Hroom. exists r. split; [exact Hrun|].
    destruct (index_ctor_reaches_check handle metric kind n_lists dim pq_bits
                0 nnl r Hrun) as [c [rot Hctor]]; try assumption; try lia.
    rewrite Hctor.
    destruct Hbits as [-> | ->]; destruct Hr as [->|[->| ->]]; reflexivity.
Qed.

Lemma auto_pq_dim_rejected_witness :
  0 <= 3 < 8 /\ (5 = 5 \/ 5 = 7) /\
  (forall t exts, can_allocate unlimited_handle t exts = true) /\
  exists r,
    calculate_pq_dim 3 = Some r /\
    ivf_pq.index_ctor unlimited_handle 0 ivf_pq.PER_CLUSTER 1024 3 5 0 0
      = Err (expects_pq_dim 5 r (5 * r)).
Proof.
  assert (Hdim : 0 <= 3 < 8) by lia.
  assert (Hbits : 5 = 5 \/ 5 = 7) by (left; reflexivity).
  assert (Hroom : forall t exts, can_allocate unlimited_handle t exts = true)
    by reflexivity.
  repeat (split; [assumption|]).
  exact (proj2 (auto_pq_dim_rejected unlimited_handle 0 ivf_pq.PER_CLUSTER
                  1024 3 5 0 Hdim Hbits)
           (or_intror eq_refl) Hroom).
Defined.

(** ** Sub-vectors and the rotated space *)

Lemma calculate_pq_dim_ratio dim r :
  Uint32.in_range dim -> 1 <= dim ->
  calculate_pq_dim dim = Some r ->
  1 <= r <= dim /\ dim <= 3 * r.
Proof.
  intros Hd H1 Hrun. pose proof Hd as [_ Hhi]. unfold Uint32.modulus in Hhi.
  destruct (calculate_pq_dim_cases dim Hd) as [d [Hhalf [Hkeep Hcase]]].
  destruct Hcase as [[H32 Hr]|[[Hsmall [j [Hj [Hr Hbr]]]]|[Hz _]]];
    [| |lia]; rewrite Hr in Hrun; inversion Hrun; subst r.
  - destruct (round_down_safe_multiple d 32) as [[q Hq] Hb]; [lia|].
    destruct (Z_lt_le_dec dim 128) as [Hs|Hb128].
    + rewrite Hkeep in * by lia. lia.
    + rewrite Hhalf in * by lia.
      pose proof (Z.div_mod dim 2 ltac:(lia)) as Hdm.
      pose proof (Z.mod_pos_bound dim 2 ltac:(lia)) as Hm.
      lia.
  - assert (Hdd : d = dim).
    { destruct (Z_lt_le_dec dim 128) as [Hs|Hb128]; [auto|].
      rewrite Hhalf in Hsmall by lia.
      assert (64 <= dim / 2) by (apply Z.div_le_lower_bound; lia). lia. }
    rewrite Hdd in *.
    assert (Hdbl : 2 ^ (j + 1) = 2 * 2 ^ j)
      by (rewrite Z.pow_add_r by lia; change (2 ^ 1) with 2; lia).
    lia.
Qed.

(** X5.  An index constructed with [pq_dim = 0] for [1 <= dim <= 2^31] has
    a [pq_dim] between 1 and [dim], sub-vectors of 1, 2 or 3 components
    ([pq_len]), and a rotated space with [dim <= rot_dim < 2 * dim] and
    [rot_dim] a multiple of [pq_dim]. *)
Theorem auto_pq_dim_subspaces handle metric kind n_lists dim pq_bits nnl self :
  1 <= dim <= 2 ^ 31 ->
  ivf_pq.index_ctor handle metric kind n_lists dim pq_bits 0 nnl = Ok self ->
  1 <= ivf_pq.pq_dim self <= dim /\
  exists len rot,
    ivf_pq.pq_len self = Some len /\ 1 <= len <= 3 /\
    ivf_pq.rot_dim self = Some rot /\
    dim <= rot < 2 * dim /\
    rot mod ivf_pq.pq_dim self = 0.
Proof.
  intros Hdim Hctor.
  assert (Hd : Uint32.in_range dim)
    by (unfold Uint32.in_range, Uint32.modulus; lia).
  destruct (index_ctor_Ok _ _ _ _ _ _ _ _ _ Hctor)
    as [r [c [rot [Hder [_ [_ [_ ->]]]]]]].
  change (0 =? 0) with true in Hder. cbv iota in Hder.
  destruct (calculate_pq_dim_ratio dim r Hd ltac:(lia) Hder) as [Hr H3].
  destruct (div_rounding_up_unsafe_ceil dim r ltac:(lia))
    as [len [Hlen [Hlo Hhi]]].
  split; [exact Hr|].
  exists len, (len * r).
  assert (Hsmall : Uint32.in_range (len * r))
    by (unfold Uint32.in_range, Uint32.modulus; nia).
  unfold ivf_pq.rot_dim, ivf_pq.pq_len, ivf_pq.pq_dim, ivf_pq.dim.
  cbn [empty_index ivf_pq.scalars ivf_pq.pq_dim_ ivf_pq.dim_].
  rewrite Hlen. cbn [option_map].
  unfold Uint32.mul. rewrite wrap_small by exact Hsmall.
  assert (Hlo' : len * r - r < dim) by lia.
  split; [reflexivity|]. split; [nia|]. split; [reflexivity|].
  split; [lia|apply Z_mod_mult].
Qed.

Lemma auto_pq_dim_subspaces_witness :
  1 <= 128 <= 2 ^ 31 /\
  exists self,
    ivf_pq.index_ctor unlimited_handle 0 ivf_pq.PER_SUBSPACE 8 128 8 0 0
      = Ok self /\
    1 <= ivf_pq.pq_dim self <= 128 /\
    exists len rot,
      ivf_pq.pq_len self = Some len /\ 1 <= len <= 3 /\
      ivf_pq.rot_dim self = Some rot /\
      128 <= rot < 2 * 128 /\
      rot mod ivf_pq.pq_dim self = 0.
Proof.
  assert (Hdim : 1 <= 128 <= 2 ^ 31) by (split; [lia|vm_compute; discriminate]).
  split; [exact Hdim|].
  eexists. split; [reflexivity|].
  exact (auto_pq_dim_subspaces unlimited_handle 0 ivf_pq.PER_SUBSPACE
           8 128 8 0 _ Hdim eq_refl).
Defined.

(** X6.  On every index object with [dim + pq_dim <= 2^32] the rotated
    space adds fewer than [pq_dim] components to [dim], and
    [rot_dim == dim] exactly when [dim] is a multiple of [pq_dim]. *)
Theorem rot_dim_padding self :
  ivf_pq.reachable self ->
  ivf_pq.dim self + ivf_pq.pq_dim self <= 2 ^ 32 ->
  exists rot,
    ivf_pq.rot_dim self = Some rot /\
    0 <= rot - ivf_pq.dim self < ivf_pq.pq_dim self /\
    (rot = ivf_pq.dim self <-> ivf_pq.dim self mod ivf_pq.pq_dim self = 0).
Proof.
  intros Hreach Hfit.
  destruct (reachable_inv self Hreach) as [_ Hdim _ Hpq Hnz _ _ _ _ _ _ _].
  unfold Uint32.in_range, Uint32.modulus in Hdim, Hpq.
  destruct (div_rounding_up_unsafe_ceil (ivf_pq.dim self) (ivf_pq.pq_dim self))
    as [len [Hlen [Hlo Hhi]]]; [lia|].
  exists (len * ivf_pq.pq_dim self).
  assert (Hsmall : Uint32.in_range (len * ivf_pq.pq_dim self))
    by (unfold Uint32.in_range, Uint32.modulus; nia).
  split; [|split; [nia|split]].
  - unfold ivf_pq.rot_dim, ivf_pq.pq_len. rewrite Hlen. simpl.
    unfold Uint32.mul. rewrite wrap_small by exact Hsmall. reflexivity.
  - intros <-. apply Z_mod_mult.
  - intros Hmod. apply Zmod_divides in Hmod; [|lia].
    destruct Hmod as [q Hq].
    assert (Hq1 : len - 1 < q)
      by (apply (Z.mul_lt_mono_pos_r (ivf_pq.pq_dim self)); lia).
    assert (Hq2 : q <= len)
      by (apply (Z.mul_le_mono_pos_r _ _ (ivf_pq.pq_dim self)); lia).
    assert (q = len) by lia. subst q. lia.
Qed.

Lemma rot_dim_padding_witness :
  ivf_pq.reachable small_index /\
  ivf_pq.dim small_index + ivf_pq.pq_dim small_index <= 2 ^ 32 /\
  exists rot,
    ivf_pq.rot_dim small_index = Some rot /\
    0 <= rot - ivf_pq.dim small_index < ivf_pq.pq_dim small_index /\
    (rot = ivf_pq.dim small_index <->
     ivf_pq.dim small_index mod ivf_pq.pq_dim small_index = 0).
Proof.
  assert (Hfit : ivf_pq.dim small_index + ivf_pq.pq_dim small_index <= 2 ^ 32)
    by (vm_compute; discriminate).
  split; [exact small_index_reachable|]. split; [exact Hfit|].
  exact (rot_dim_padding small_index small_index_reachable Hfit).
Defined.

(** ** Shapes kept over the lifetime of an index *)

(** X7.  On every index object, whatever calls of [allocate] and stores
    came before, [rotation_matrix] has shape [[rot_dim, dim]], [centers] has
    shape [[n_lists, dim_ext]] and [centers_rot] has shape
    [[n_lists, rot_dim]]. *)
Theorem trained_arrays_shape self :
  ivf_pq.reachable self ->
  exists rot,
    ivf_pq.rot_dim self = Some rot /\
    extents (ivf_pq.rotation_matrix_ self) = [rot; ivf_pq.dim self] /\
    extents (ivf_pq.centers_ self)
      = [ivf_pq.n_lists self; ivf_pq.dim_ext self] /\
    extents (ivf_pq.centers_rot_ self) = [ivf_pq.n_lists self; rot].
Proof.
  intros Hreach. pose proof (reachable_inv self Hreach) as Hinv.
  destruct (inv_rotation self Hinv) as [rot [Hrot [Hmat Hcrot]]].
  exists rot. pose proof (inv_centers self Hinv). auto.
Qed.

Lemma trained_arrays_shape_witness :
  ivf_pq.reachable small_index /\
  exists rot,
    ivf_pq.rot_dim small_index = Some rot /\
    extents (ivf_pq.rotation_matrix_ small_index)
      = [rot; ivf_pq.dim small_index] /\
    extents (ivf_pq.centers_ small_index)
      = [ivf_pq.n_lists small_index; ivf_pq.dim_ext small_index] /\
    extents (ivf_pq.centers_rot_ small_index)
      = [ivf_pq.n_lists small_index; rot].
Proof.
  split; [exact small_index_reachable|].
  exact (trained_arrays_shape small_index small_index_reachable).
Defined.

(** X8.  On every index object with [pq_dim < 2^29] a row of [pq_dataset]
    holds the [pq_dim] codes of [pq_bits] bits exactly: its width in bytes
    times 8 is [pq_dim * pq_bits], so the width is between [pq_dim / 2] and
    [pq_dim]. *)
Theorem pq_dataset_row_exact self :
  ivf_pq.reachable self ->
  ivf_pq.pq_dim self < 2 ^ 29 ->
  8 * extent (ivf_pq.pq_dataset_ self) 1
    = ivf_pq.pq_dim self * ivf_pq.pq_bits self /\
  extent (ivf_pq.pq_dataset_ self) 1 <= ivf_pq.pq_dim self
    <= 2 * extent (ivf_pq.pq_dataset_ self) 1.
Proof.
  intros Hreach Hlt. pose proof (reachable_inv self Hreach) as Hinv.
  rewrite (extent_pq_dataset_inv self Hinv).
  destruct Hinv as [_ _ _ Hpq _ Hchk _ _ _ _ _ _].
  apply check_consistency_Ok in Hchk. destruct Hchk as [Hbits Hmod].
  unfold Uint32.in_range in Hpq. change (2 ^ 29) with 536870912 in Hlt.
  assert (Hsmall : Uint32.in_range (ivf_pq.pq_dim self * ivf_pq.pq_bits self))
    by (unfold Uint32.in_range, Uint32.modulus; nia).
  unfold Uint32.mul in *.
  rewrite (Z.mul_comm (ivf_pq.pq_bits self)) in Hmod.
  rewrite wrap_small in * by exact Hsmall.
  pose proof (Z.div_mod (ivf_pq.pq_dim self * ivf_pq.pq_bits self) 8
                ltac:(lia)) as Hdm.
  rewrite Hmod in Hdm. nia.
Qed.

Lemma pq_dataset_row_exact_witness :
  ivf_pq.reachable small_index /\
  ivf_pq.pq_dim small_index < 2 ^ 29 /\
  8 * extent (ivf_pq.pq_dataset_ small_index) 1
    = ivf_pq.pq_dim small_index * ivf_pq.pq_bits small_index /\
  extent (ivf_pq.pq_dataset_ small_index) 1 <= ivf_pq.pq_dim small_index
    <= 2 * extent (ivf_pq.pq_dataset_ small_index) 1.
Proof.
  assert (Hlt : ivf_pq.pq_dim small_index < 2 ^ 29) by reflexivity.
  split; [exact small_index_reachable|]. split; [exact Hlt|].
  exact (pq_dataset_row_exact small_index small_index_reachable Hlt).
Defined.

(** ** Repeated allocation *)

(** X9.  [allocate] keeps nothing of an earlier call: after a call
    [allocate(n)], whether it returned or threw, a call [allocate(m)] that
    returns leaves the object a single [allocate(m)] would have produced,
    and no cell of [pq_dataset] or [indices] holds a value, whatever had been
    stored before.  In particular a failed [allocate] is repaired by the next
    one that returns. *)
Theorem allocate_last_wins self h1 h2 h3 n m s1 outcome s2 s3 :
  ivf_pq.reachable self ->
  ivf_pq.allocate h1 n self = (s1, outcome) ->
  ivf_pq.allocate h2 m s1 = (s2, Ok tt) ->
  ivf_pq.allocate h3 m self = (s3, Ok tt) ->
  s2 = s3 /\
  forall i,
    cells (ivf_pq.pq_dataset_ s2) i = None /\
    cells (ivf_pq.indices_ s2) i = None.
Proof.
  intros Hreach H1 H2 H3.
  pose proof (reachable_inv self Hreach) as Hinv.
  pose proof (index_inv_allocate _ _ _ _ _ Hinv H1) as Hinv1.
  rewrite (allocate_Ok _ _ _ _ Hinv1 H2), (allocate_Ok _ _ _ _ Hinv H3).
  rewrite allocate_cases in H1. cbv zeta in H1.
  destruct (can_allocate h1 uint8_t _);
    [destruct (can_allocate h1 IdxT_t _)|];
    inversion H1; subst s1;
    (split; [reflexivity|intros i; split; reflexivity]).
Qed.

Lemma allocate_last_wins_witness :
  let allocated :=
    ivf_pq.set_indices (uninitialised IdxT_t [5])
      (ivf_pq.set_pq_dataset (uninitialised uint8_t [5; 4]) small_index) in
  let stored := ivf_pq.store_through ivf_pq.indices 0 42 allocated in
  let s1 :=
    ivf_pq.set_indices (uninitialised IdxT_t [5])
      (ivf_pq.set_pq_dataset (uninitialised uint8_t [5; 4]) stored) in
  let s2 :=
    ivf_pq.set_indices (uninitialised IdxT_t [7])
      (ivf_pq.set_pq_dataset (uninitialised uint8_t [7; 4]) s1) in
  let s3 :=
    ivf_pq.set_indices (uninitialised IdxT_t [7])
      (ivf_pq.set_pq_dataset (uninitialised uint8_t [7; 4]) stored) in
  ivf_pq.reachable stored /\
  cells (ivf_pq.indices_ stored) 0 = Some 42 /\
  ivf_pq.allocate unlimited_handle 5 stored = (s1, Ok tt) /\
  ivf_pq.allocate unlimited_handle 7 s1 = (s2, Ok tt) /\
  ivf_pq.allocate unlimited_handle 7 stored = (s3, Ok tt) /\
  s2 = s3 /\
  forall i,
    cells (ivf_pq.pq_dataset_ s2) i = None /\
    cells (ivf_pq.indices_ s2) i = None.
Proof.
  intros allocated stored s1 s2 s3.
  assert (Hreach : ivf_pq.reachable stored).
  { apply ivf_pq.reachable_store.
    - apply (ivf_pq.reachable_allocate unlimited_handle 5 small_index
               allocated (Ok tt) small_index_reachable eq_refl).
    - vm_compute. split; [discriminate|reflexivity]. }
  split; [exact Hreach|].
  do 4 (split; [reflexivity|]).
  exact (allocate_last_wins stored unlimited_handle unlimited_handle
           unlimited_handle 5 7 s1 (Ok tt) s2 s3 Hreach
           eq_refl eq_refl eq_refl).
Defined.

(** ** The shift in [pq_book_size] *)

(** X10.  The constructor evaluates [1 << pq_bits] for the extents of
    [pq_centers] before it validates [pq_bits]: for a [uint32_t] [dim] its
    behaviour is undefined exactly when the codebook mode is an enumerator
    and [pq_bits >= 32].  The division in [pq_len()] is never by zero. *)
Theorem index_ctor_undefined handle metric kind n_lists dim pq_bits pq_dim nnl :
  Uint32.in_range dim ->
  ivf_pq.index_ctor handle metric kind n_lists dim pq_bits pq_dim nnl
    = Err undefined_behaviour <->
  (kind = ivf_pq.PER_SUBSPACE \/ kind = ivf_pq.PER_CLUSTER) /\ 32 <= pq_bits.
Proof.
  intros Hd. split.
  - intros Hctor.
    destruct (index_ctor_Err _ _ _ _ _ _ _ _ _ Hd Hctor) as [derived [Hder He]].
    pose proof (derived_pq_dim_nonzero dim pq_dim derived Hd Hder) as Hnz.
    cbv zeta in He.
    set (s := {| ivf_pq.metric_ := metric;
                 ivf_pq.codebook_kind_ := kind;
                 ivf_pq.n_lists_ := n_lists;
                 ivf_pq.dim_ := dim;
                 ivf_pq.pq_bits_ := pq_bits;
                 ivf_pq.pq_dim_ := derived;
                 ivf_pq.n_nonempty_lists_ := nnl |}) in He.
    assert (Hlen : exists len, ivf_pq.pq_len s = Some len).
    { unfold ivf_pq.pq_len, div_rounding_up_unsafe. simpl.
      apply Z.eqb_neq in Hnz. rewrite Hnz. eauto. }
    destruct Hlen as [len Hlen].
    destruct He as [He|[He|[[_ He]|He]]].
    + unfold ivf_pq.make_pq_centers_extents in He. rewrite Hlen in He.
      unfold ivf_pq.pq_book_size in He.
      change (ivf_pq.codebook_kind s) with kind in He.
      change (ivf_pq.pq_bits s) with pq_bits in He.
      destruct (kind =? ivf_pq.PER_SUBSPACE) eqn:Hs;
        [|destruct (kind =? ivf_pq.PER_CLUSTER) eqn:Hc];
        [| |discriminate He];
        (destruct (pq_bits <? 32) eqn:Hlt; [discriminate He|]);
        apply Z.ltb_ge in Hlt; rewrite ?Z.eqb_eq in *; auto.
    + discriminate He.
    + unfold ivf_pq.rot_dim in He. rewrite Hlen in He. discriminate He.
    + apply check_consistency_Err in He.
      destruct He as [[He _]|[He _]]; discriminate He.
  - intros [Hkind Hbits].
    destruct (calculate_pq_dim_positive dim Hd) as [r [Hrun _]].
    assert (Hbook : forall s, ivf_pq.pq_bits s = pq_bits ->
                              ivf_pq.pq_book_size s = None).
    { intros s Hs. unfold ivf_pq.pq_book_size. rewrite Hs.
      apply Z.ltb_ge in Hbits. rewrite Hbits. reflexivity. }
    unfold ivf_pq.index_ctor.
    destruct (pq_dim =? 0); [rewrite Hrun|]; simpl bind at 1;
      unfold ivf_pq.make_pq_centers_extents;
      rewrite Hbook by reflexivity;
      destruct Hkind as [-> | ->]; reflexivity.
Qed.

Lemma index_ctor_undefined_witness :
  Uint32.in_range 128 /\
  (ivf_pq.index_ctor unlimited_handle 0 ivf_pq.PER_SUBSPACE 1024 128 40 0 0
     = Err undefined_behaviour <->
   (ivf_pq.PER_SUBSPACE = ivf_pq.PER_SUBSPACE \/
    ivf_pq.PER_SUBSPACE = ivf_pq.PER_CLUSTER) /\ 32 <= 40).
Proof.
  assert (Hd : Uint32.in_range 128) by (apply in_range_small; lia).
  split; [exact Hd|].
  exact (index_ctor_undefined unlimited_handle 0 ivf_pq.PER_SUBSPACE
           1024 128 40 0 0 Hd).
Defined.

(** ** Default parameters *)

(** X11.  With the default [index_params] ([n_lists = 1024], [pq_bits = 8],
    [pq_dim = 0], [PER_SUBSPACE]) the constructor returns for every
    [uint32_t] [dim] when every allocation succeeds, and never raises a
    validation failure; the index is empty, has [pq_dim =
    calculate_pq_dim(dim)] and codebooks of 256 entries. *)
Theorem default_params_construct handle metric dim nnl :
  Uint32.in_range dim ->
  (forall e,
      ivf_pq.index_ctor_params handle (ivf_pq.default_index_params metric)
        dim nnl = Err e ->
      e = bad_alloc) /\
  ((forall t exts, can_allocate handle t exts = true) ->
   exists self,
     ivf_pq.index_ctor_params handle (ivf_pq.default_index_params metric)
       dim nnl = Ok self /\
     ivf_pq.n_lists self = 1024 /\
     ivf_pq.pq_bits self = 8 /\
     ivf_pq.codebook_kind self = ivf_pq.PER_SUBSPACE /\
     calculate_pq_dim dim = Some (ivf_pq.pq_dim self) /\
     ivf_pq.pq_book_size self = Some 256 /\
     ivf_pq.size self = 0).
Proof.
  intros Hd. unfold ivf_pq.index_ctor_params. simpl.
  destruct (calculate_pq_dim_positive dim Hd) as [r [Hrun [Hpos _]]].
  assert (Hpass : forall s,
             ivf_pq.pq_bits s = 8 -> ivf_pq.check_consistency s = Ok tt).
  { intros s Hb. apply check_consistency_Ok. rewrite Hb.
    split; [lia|]. unfold Uint32.mul. rewrite wrap_mod_8.
    rewrite Z.mul_comm. apply Z_mod_mult. }
  split.
  - intros e Hctor.
    destruct (index_ctor_Err _ _ _ _ _ _ _ _ _ Hd Hctor) as [derived [Hder He]].
    change (0 =? 0) with true in Hder. cbv iota in Hder.
    rewrite Hrun in Hder. inversion Hder. subst derived. cbv zeta in He.
    destruct He as [He|[He|[[_ He]|He]]].
    + unfold ivf_pq.make_pq_centers_extents, ivf_pq.pq_book_size,
        ivf_pq.pq_len, div_rounding_up_unsafe in He. simpl in He.
      destruct (r =? 0) eqn:Hz; [apply Z.eqb_eq in Hz; lia|].
      discriminate He.
    + exact He.
    + unfold ivf_pq.rot_dim, ivf_pq.pq_len, div_rounding_up_unsafe in He.
      simpl in He.
      destruct (r =? 0) eqn:Hz; [apply Z.eqb_eq in Hz; lia|].
      discriminate He.
    + rewrite Hpass in He by reflexivity. discriminate He.
  - intros Hroom.
    destruct (index_ctor_reaches_check handle metric ivf_pq.PER_SUBSPACE 1024
                dim 8 0 nnl r Hrun) as [c [rot Hctor]];
      try assumption; try lia; try (left; reflexivity).
    rewrite Hpass in Hctor by reflexivity. simpl bind in Hctor.
    eexists. split; [exact Hctor|].
    repeat split; try reflexivity. exact Hrun.
Qed.

Lemma default_params_construct_witness :
  Uint32.in_range 100 /\
  (forall t exts, can_allocate unlimited_handle t exts = true) /\
  exists self,
    ivf_pq.index_ctor_params unlimited_handle (ivf_pq.default_index_params 0)
      100 0 = Ok self /\
    ivf_pq.n_lists self = 1024 /\
    ivf_pq.pq_bits self = 8 /\
    ivf_pq.codebook_kind self = ivf_pq.PER_SUBSPACE /\
    calculate_pq_dim 100 = Some (ivf_pq.pq_dim self) /\
    ivf_pq.pq_book_size self = Some 256 /\
    ivf_pq.size self = 0.
Proof.
  assert (Hd : Uint32.in_range 100) by (apply in_range_small; lia).
  assert (Hroom : forall t exts, can_allocate unlimited_handle t exts = true)
    by reflexivity.
  split; [exact Hd|]. split; [exact Hroom|].
  exact (proj2 (default_params_construct unlimited_handle 0 100 0 Hd) Hroom).
Defined.

(** ** Growth of the derived [pq_dim] *)

(** X12.  [calculate_pq_dim] is monotone below 128 and monotone from 128
    on: of two dimensions on the same side of the halving threshold the
    larger never gets the smaller [pq_dim]. *)
Theorem calculate_pq_dim_monotone d1 d2 r1 r2 :
  Uint32.in_range d1 -> Uint32.in_range d2 ->
  d1 <= d2 -> d2 < 128 \/ 128 <= d1 ->
  calculate_pq_dim d1 = Some r1 -> calculate_pq_dim d2 = Some r2 ->
  r1 <= r2.
Proof.
  intros Hd1 Hd2 Hle Hside Hr1 Hr2.
  destruct (calculate_pq_dim_positive d2 Hd2) as [r2' [Hrun2 [Hpos2 _]]].
  rewrite Hr2 in Hrun2. inversion Hrun2. subst r2'. clear Hrun2.
  destruct (calculate_pq_dim_cases d1 Hd1) as [e1 [Hhalf1 [Hkeep1 Hcase1]]].
  destruct (calculate_pq_dim_cases d2 Hd2) as [e2 [Hhalf2 [Hkeep2 Hcase2]]].
  assert (He : e1 <= e2).
  { destruct Hside as [Hs|Hb].
    - rewrite Hkeep1, Hkeep2 by lia. exact Hle.
    - rewrite Hhalf1, Hhalf2 by lia. apply Z.div_le_mono; lia. }
  assert (He1 : 0 <= e1).
  { destruct Hd1 as [Hlo _]. destruct (Z_lt_le_dec d1 128).
    - rewrite Hkeep1; lia.
    - rewrite Hhalf1 by lia. apply Z.div_pos; lia. }
  destruct Hcase1 as [[H32a Ha]|[[Hsa [j1 [Hj1 [Ha Hbra]]]]|[Hza Ha]]];
    rewrite Ha in Hr1; inversion Hr1; subst r1; clear Hr1; [| |lia].
  - destruct Hcase2 as [[H32b Hb]|[[Hsb [j2 [Hj2 [Hb Hbrb]]]]|[Hzb Hb]]];
      [|lia|lia].
    rewrite Hb in Hr2. inversion Hr2. subst r2.
    destruct (round_down_safe_multiple e1 32) as [[q1 Hq1] Hb1]; [lia|].
    destruct (round_down_safe_multiple e2 32) as [[q2 Hq2] Hb2]; [lia|].
    lia.
  - destruct Hcase2 as [[H32b Hb]|[[Hsb [j2 [Hj2 [Hb Hbrb]]]]|[Hzb Hb]]];
      [| |lia]; rewrite Hb in Hr2; inversion Hr2; subst r2.
    + destruct (round_down_safe_multiple e2 32) as [[q2 Hq2] Hb2]; [lia|].
      lia.
    + apply Z.pow_le_mono_r; [lia|].
      assert (j1 < j2 + 1); [|lia].
      apply (Z.pow_lt_mono_r_iff 2); lia.
Qed.

Lemma calculate_pq_dim_monotone_witness :
  Uint32.in_range 40 /\ Uint32.in_range 100 /\ 40 <= 100 /\
  (100 < 128 \/ 128 <= 40) /\
  calculate_pq_dim 40 = Some 32 /\ calculate_pq_dim 100 = Some 96 /\
  32 <= 96.
Proof.
  assert (H1 : Uint32.in_range 40) by (apply in_range_small; lia).
  assert (H2 : Uint32.in_range 100) by (apply in_range_small; lia).
  assert (Hle : 40 <= 100) by lia.
  assert (Hside : 100 < 128 \/ 128 <= 40) by (left; lia).
  repeat (split; [first [assumption | reflexivity]|]).
  exact (calculate_pq_dim_monotone 40 100 32 96 H1 H2 Hle Hside
           eq_refl eq_refl).
Defined.

(** ** The extended dimension *)

(** X13.  For [dim <= 2^32 - 9], [dim_ext()] is the multiple of 8 with
    [dim < dim_ext <= dim + 8]: [centers] has room for the [dim] components
    and at least one more column.  At [dim = 2^32 - 1] the sum [dim() + 1]
    wraps to 0 and [dim_ext()] is 0. *)
Theorem dim_ext_bounds (s : ivf_pq.index_scalars) :
  Uint32.in_range (ivf_pq.dim s) ->
  (ivf_pq.dim s <= 2 ^ 32 - 9 ->
   ivf_pq.dim s < ivf_pq.dim_ext s <= ivf_pq.dim s + 8 /\
   ivf_pq.dim_ext s mod 8 = 0) /\
  (ivf_pq.dim s = 2 ^ 32 - 1 ->
   Uint32.add (ivf_pq.dim s) 1 = 0 /\ ivf_pq.dim_ext s = 0).
Proof.
  intros [Hlo Hhi]. unfold Uint32.modulus in Hhi.
  unfold ivf_pq.dim_ext, Uint32.add.
  change (2 ^ 32) with 4294967296 in *.
  split.
  - intros Hfit.
    rewrite (wrap_small (ivf_pq.dim s + 1))
      by (unfold Uint32.in_range, Uint32.modulus; lia).
    destruct (round_up_safe_multiple (ivf_pq.dim s + 1) 8) as [[q Hq] Hb];
      [lia|].
    rewrite wrap_small by (unfold Uint32.in_range, Uint32.modulus; lia).
    split; [lia|]. rewrite Hq, Z.mul_comm. apply Z_mod_mult.
  - intros Hmax. rewrite Hmax. split; reflexivity.
Qed.

Lemma dim_ext_bounds_witness :
  Uint32.in_range (ivf_pq.dim small_scalars) /\
  ivf_pq.dim small_scalars <= 2 ^ 32 - 9 /\
  ivf_pq.dim small_scalars < ivf_pq.dim_ext small_scalars
    <= ivf_pq.dim small_scalars + 8 /\
  ivf_pq.dim_ext small_scalars mod 8 = 0.
Proof.
  assert (Hd : Uint32.in_range (ivf_pq.dim small_scalars))
    by (apply in_range_small; simpl; lia).
  assert (Hfit : ivf_pq.dim small_scalars <= 2 ^ 32 - 9)
    by (vm_compute; discriminate).
  split; [exact Hd|]. split; [exact Hfit|].
  exact (proj1 (dim_ext_bounds small_scalars Hd) Hfit).
Defined.
